(** * InsurDoc-AI: the report-to-template pipeline of [app.py]

    A shallow embedding of the five functions of [app.py]
    ([get_llm_client], [extract_text_from_pdfs], [extract_text_from_docx],
    [call_llm_to_get_field_mapping], [fill_template_docx]) and of the
    Streamlit action handler that chains them, followed by the properties
    proved about them.

    Python values are modelled as the program uses them:
    - [str] is [string], one [ascii] standing for one character;
      [str.replace] and [str.join] are written out below;
    - a [dict] is an association list in insertion order, since the filler
      iterates [field_values.items()] and the order is observable;
    - an exception is a value of [exn]; a call that may raise returns a
      [result];
    - the objects handed out by the PDF and DOCX libraries are records of
      the attributes the program reads and assigns. *)

From Stdlib Require Import Ascii String ZArith QArith Lia.
From stdpp Require Import base option list strings.

Set Warnings "-register-all".
Local Open Scope stdpp_scope.
Local Open Scope nat_scope.

(** ** Python strings *)

Module Str.

(** Characters that cannot be written inside a literal. *)
Definition nl : string := String "010"%char EmptyString.
Definition dq : string := String "034"%char EmptyString.
Definition cr : string := String "013"%char EmptyString.

(** [sep.join(pieces)]. *)
Definition join (sep : string) (pieces : list string) : string :=
  String.concat sep pieces.

(** [s.replace("", new)]: [new] goes in front of every character and
    once more after the last one. *)
Fixpoint interleave (new s : string) : string :=
  match s with
  | EmptyString => new
  | String c s' => new +:+ String c (interleave new s')
  end.

(** [s.replace(old, new)] for a non-empty [old]: the text is scanned from
    the left; where [old] starts, [new] is emitted and the scan resumes
    behind the occurrence, so occurrences do not overlap and the emitted
    [new] is not scanned.  [skip] counts the characters of the current
    occurrence that are still to be passed over. *)
Fixpoint scan (old new : string) (skip : nat) (s : string) : string :=
  match s with
  | EmptyString => EmptyString
  | String c s' =>
      match skip with
      | S k => scan old new k s'
      | O =>
          if String.prefix old s
          then new +:+ scan old new (String.length old - 1) s'
          else String c (scan old new 0 s')
      end
  end.

(** [s.replace(old, new)]. *)
Definition replace (s old new : string) : string :=
  match old with
  | EmptyString => interleave new s
  | String _ _ => scan old new 0 s
  end.

(** [s[n:]]. *)
Fixpoint drop (n : nat) (s : string) : string :=
  match n, s with
  | O, _ => s
  | S _, EmptyString => EmptyString
  | S k, String _ s' => drop k s'
  end.

End Str.

(** ** Exceptions *)

Inductive exn : Type :=
| ValueError (msg : string)
| JSONDecodeError
| TypeError
| AttributeError
| IndexError
| APIError
| PdfReadError
| BadZipFile
| StopException.

Inductive result (A : Type) : Type :=
| Ok (a : A)
| Raise (e : exn).
Arguments Ok {A} a.
Arguments Raise {A} e.

#[global] Instance result_ret : MRet result := fun A a => Ok a.

#[global] Instance result_bind : MBind result := fun A B k r =>
  match r with
  | Ok a => k a
  | Raise e => Raise e
  end.

(** A [for] loop whose body may raise, over an accumulator. *)
Fixpoint rfold {A B : Type} (body : A -> B -> result A) (acc : A) (xs : list B)
  : result A :=
  match xs with
  | [] => Ok acc
  | x :: xs' => acc' ← body acc x; rfold body acc' xs'
  end.

(** A [for] loop that assigns to each element in turn. *)
Fixpoint rmap {A B : Type} (body : A -> result B) (xs : list A)
  : result (list B) :=
  match xs with
  | [] => Ok []
  | x :: xs' =>
      y ← body x; ys ← rmap body xs'; Ok (y :: ys)
  end.

(** ** JSON values, as [json.loads] returns them *)

Inductive json : Type :=
| JNull
| JBool (b : bool)
| JInt (z : Z)
| JFloat (q : Q)
| JStr (s : string)
| JArr (items : list json)
| JObj (members : list (string * json)).

(** [d.get(key, default)] on the members of a [dict]. *)
Fixpoint dict_get (members : list (string * json)) (key : string)
  : option json :=
  match members with
  | [] => None
  | (k, v) :: rest => if String.eqb k key then Some v else dict_get rest key
  end.

(** [obj.get(key, default)]: only a [dict] has the method. *)
Definition py_get (obj : json) (key : string) (default : json) : result json :=
  match obj with
  | JObj members =>
      Ok (match dict_get members key with Some v => v | None => default end)
  | _ => Raise AttributeError
  end.

(** [obj.items()]: only a [dict] has the method. *)
Definition py_items (obj : json) : result (list (string * json)) :=
  match obj with
  | JObj members => Ok members
  | _ => Raise AttributeError
  end.

(** [text.replace(k, v)] with a [v] of any type: a [str] is required. *)
Definition py_replace (text k : string) (v : json) : result string :=
  match v with
  | JStr new => Ok (Str.replace text k new)
  | _ => Raise TypeError
  end.

(** A [dict] whose values are all strings. *)
Definition str_dict (m : list (string * string)) : json :=
  JObj (map (fun kv => (fst kv, JStr (snd kv))) m).

(** ** The template filler: placeholder substitution *)

(** The text a dict of strings leads to: each entry rewrites, in iteration
    order, the text the entries before it have left. *)
Definition substitute (m : list (string * string)) (text : string) : string :=
  fold_left (fun text kv => Str.replace text (fst kv) (snd kv)) m text.

(** The inner function [replace] of [fill_template_docx]. *)
Definition replace (field_values : json) (text : string) : result string :=
  items ← py_items field_values;
  rfold (fun text kv => py_replace text (fst kv) (snd kv)) text items.

(** ** Uploaded files

    An uploaded byte stream is identified with what the parsing library makes
    of it: either the object it decodes to, or nothing, in which case the
    constructor of the library raises. *)

(** A page of a PDF; [extract_text] is what [page.extract_text()] returns
    ([None] for a result that is not a string). *)
Record page : Type := Page { extract_text : option string }.

Inductive pdf_file : Type :=
| PdfBytes (pages : list page)
| PdfGarbage.

(** [PdfReader(pdf).pages]. *)
Definition PdfReader (pdf : pdf_file) : result (list page) :=
  match pdf with
  | PdfBytes pages => Ok pages
  | PdfGarbage => Raise PdfReadError
  end.

(** The characters the XML library accepts in the text of an element: tab,
    line feed, carriage return and everything from the space on.  A text
    with another character (NUL, form feed, ...) makes it raise. *)
Definition xml_char (c : ascii) : bool :=
  let n := nat_of_ascii c in
  (n =? 9) || (n =? 10) || (n =? 13) || (32 <=? n).

Fixpoint xml_compatible (text : string) : bool :=
  match text with
  | EmptyString => true
  | String c rest => xml_char c && xml_compatible rest
  end.

(** What a run reads after [text] was assigned to it: a carriage return is
    stored as a line break, like a line feed, and a line break reads as a
    line feed. *)
Fixpoint read_back (text : string) : string :=
  match text with
  | EmptyString => EmptyString
  | String c rest =>
      String (if Ascii.eqb c "013" then "010"%char else c) (read_back rest)
  end.

(** [run.text = text]: the content the run then reads. *)
Definition set_run_text (text : string) : result string :=
  if xml_compatible text then Ok (read_back text)
  else Raise (ValueError
                "All strings must be XML compatible: Unicode or ASCII, no NULL bytes or control characters").

(** A paragraph is its sequence of runs, each given by the text it reads.
    [p.text] reads the concatenation of the runs; assigning [p.text] leaves
    a single run, or raises when the text is not XML-compatible. *)
Record paragraph : Type := Paragraph { runs : list string }.

Definition p_text (p : paragraph) : string := Str.join "" (runs p).

Definition p_set_text (p : paragraph) (text : string) : result paragraph :=
  stored ← set_run_text text;
  Ok (Paragraph [stored]).

(** A table cell is its sequence of paragraphs.  [cell.text] reads the
    paragraph texts joined by newlines; assigning [cell.text] leaves a single
    paragraph with a single run, or raises when the text is not
    XML-compatible. *)
Record cell : Type := Cell { cell_paragraphs : list paragraph }.

Definition cell_text (c : cell) : string :=
  Str.join Str.nl (map p_text (cell_paragraphs c)).

Definition cell_set_text (c : cell) (text : string) : result cell :=
  stored ← set_run_text text;
  Ok (Cell [Paragraph [stored]]).

(** [row.cells] hands out one cell object per grid position, and a merged
    cell is handed out at every position it spans: the objects are
    references to the cells the table owns, and a row is the list of the
    references it yields. *)
Record row : Type := Row { row_cells : list nat }.

Record table : Type := Table {
  table_tcs : list cell;
  table_rows : list row
}.

(** The cell objects [row.cells] yields for a row of [t]. *)
Definition cells_of (tcs : list cell) (r : row) : list cell :=
  omap (fun i => tcs !! i) (row_cells r).

Record document : Type := Document {
  doc_paragraphs : list paragraph;
  doc_tables : list table
}.

Inductive docx_file : Type :=
| DocxBytes (doc : document)
| DocxGarbage.

(** [Document(docfile)]. *)
Definition open_docx (docfile : docx_file) : result document :=
  match docfile with
  | DocxBytes doc => Ok doc
  | DocxGarbage => Raise BadZipFile
  end.

(** [doc.save(out); out.seek(0)]: the buffer that decodes to [doc]. *)
Definition save_docx (doc : document) : docx_file := DocxBytes doc.

(** ** The document text extractor *)

(** [x or ""] for the result of [page.extract_text()]. *)
Definition or_empty (x : option string) : string :=
  match x with
  | Some s => if String.eqb s "" then "" else s
  | None => ""
  end.

Definition extract_text_from_pdfs (pdf_files : list pdf_file) : result string :=
  text ← rfold (fun text pdf =>
            pages ← PdfReader pdf;
            Ok (fold_left
                  (fun text page => text ++ [or_empty (extract_text page)])
                  pages text))
         [] pdf_files;
  Ok (Str.join (Str.nl +:+ Str.nl) text).

Definition extract_text_from_docx (docfile : docx_file) : result string :=
  doc ← open_docx docfile;
  let lines := [] in
  let lines :=
    fold_left (fun lines p => lines ++ [p_text p]) (doc_paragraphs doc) lines in
  let lines :=
    fold_left (fun lines table =>
      fold_left (fun lines row =>
        fold_left (fun lines cell =>
          fold_left (fun lines p => lines ++ [p_text p])
            (cell_paragraphs cell) lines)
          (cells_of (table_tcs table) row) lines)
        (table_rows table) lines)
      (doc_tables doc) lines in
  Ok (Str.join Str.nl lines).

(** ** The template filler *)

(** [cell.text = replace(cell.text)] for the cell object behind reference
    [i]. *)
Definition fill_cell (field_values : json) (tcs : list cell) (i : nat)
  : result (list cell) :=
  match tcs !! i with
  | Some c =>
      text ← replace field_values (cell_text c);
      c' ← cell_set_text c text;
      Ok (<[i := c']> tcs)
  | None => Ok tcs
  end.

(** The text one assignment [x.text = replace(x.text)] leaves to read when
    the dict holds strings and the assignment goes through. *)
Definition refilled (m : list (string * string)) (text : string) : string :=
  read_back (substitute m text).

(** What such an assignment makes of a cell. *)
Definition refill (m : list (string * string)) (c : cell) : cell :=
  Cell [Paragraph [refilled m (cell_text c)]].

(** The references the loops over [table.rows] and [row.cells] pass, in
    order, and how often they pass the cell behind reference [j]. *)
Definition visited (t : table) : list nat := table_rows t ≫= row_cells.

Definition visits (t : table) (j : nat) : nat :=
  length (filter (fun i => i = j) (visited t)).


Definition fill_table (field_values : json) (t : table) : result table :=
  tcs ← rfold (fun tcs row => rfold (fill_cell field_values) tcs (row_cells row))
        (table_tcs t) (table_rows t);
  Ok (Table tcs (table_rows t)).

(** The loops of [fill_template_docx] over the opened document. *)
Definition fill_document (field_values : json) (doc : document)
  : result document :=
  paragraphs ← rmap (fun p =>
                  text ← replace field_values (p_text p);
                  p_set_text p text)
               (doc_paragraphs doc);
  tables ← rmap (fill_table field_values) (doc_tables doc);
  Ok (Document paragraphs tables).

Definition fill_template_docx (template_file : docx_file) (field_values : json)
  : result docx_file :=
  doc ← open_docx template_file;
  doc' ← fill_document field_values doc;
  Ok (save_docx doc').

(** ** The LLM gateway *)

(** The [OpenAI] client object. *)
Record client : Type := Client {
  base_url : string;
  api_key : string;
  default_headers : list (string * string)
}.

(** The keyword arguments of [client.chat.completions.create]. *)
Record request : Type := Request {
  model : string;
  messages : list (string * string);
  response_format : list (string * string);
  temperature : Q
}.

(** [response.choices[i].message.content]. *)
Record choice : Type := Choice { message_content : option string }.
Record response : Type := Response { choices : list choice }.

(** What the program calls and does not define: the process environment,
    the JSON parser ([None] when [json.loads] raises on malformed text) and
    the remote completion endpoint. *)
Record externals : Type := Externals {
  os_getenv : string -> option string;
  json_loads : string -> option json;
  chat_completions_create : client -> request -> result response
}.

(** What the Streamlit script shows and, for the three components, the fact
    that the handler called into them. *)
Inductive component : Type := Extractor | Gateway | Filler.

Inductive event : Type :=
| Invoked (c : component)
| StError (msg : string)
| StSpinner (msg : string)
| StSubheader (msg : string)
| StJson (value : json)
| StSuccess (msg : string)
| StDownloadButton (label : string) (data : docx_file) (file_name : string).

(** The state that outlives a call: the resource cache of
    [@st.cache_resource] and what has been shown so far. *)
Record session : Type := Session {
  cached_client : option client;
  shown : list event
}.

Definition action (A : Type) : Type := session -> session * result A.

#[global] Instance action_ret : MRet action := fun A a s => (s, Ok a).

#[global] Instance action_bind : MBind action := fun A B k m s =>
  match m s with
  | (s', Ok a) => k a s'
  | (s', Raise e) => (s', Raise e)
  end.

Definition lift {A : Type} (r : result A) : action A := fun s => (s, r).

Definition emit (e : event) : action unit := fun s =>
  (Session (cached_client s) (shown s ++ [e]), Ok tt).

(** The body of [get_llm_client]. *)
Definition new_llm_client (X : externals) : result client :=
  let api_key := os_getenv X "OPENROUTER_API_KEY" in
  match api_key with
  | Some key =>
      if String.eqb key ""
      then Raise (ValueError "OPENROUTER_API_KEY not found in .env")
      else Ok (Client "https://openrouter.ai/api/v1" key
                 [("Authorization", "Bearer " +:+ key);
                  ("HTTP-Referer", "https://openrouter.ai");
                  ("X-Title", "Insurance-GLR-Streamlit-App")])
  | None => Raise (ValueError "OPENROUTER_API_KEY not found in .env")
  end.

(** [get_llm_client] under [@st.cache_resource]: the body runs when the
    cache is empty and its return value is kept; a raise stores nothing. *)
Definition get_llm_client (X : externals) : action client := fun s =>
  match cached_client s with
  | Some c => (s, Ok c)
  | None =>
      match new_llm_client X with
      | Ok c => (Session (Some c) (shown s), Ok c)
      | Raise e => (s, Raise e)
      end
  end.

Definition system_prompt : string :=
  Str.join Str.nl
    [ "";
      "You extract structured data from insurance photo reports to fill a DOCX template.";
      "";
      "Return JSON:";
      "{";
      "  " +:+ Str.dq +:+ "fields" +:+ Str.dq +:+ ": {";
      "     " +:+ Str.dq +:+ "<template_placeholder>" +:+ Str.dq +:+ ": "
        +:+ Str.dq +:+ "<value>" +:+ Str.dq +:+ ",";
      "     ...";
      "  }";
      "}";
      "";
      "If a value is missing, return " +:+ Str.dq +:+ Str.dq +:+ ".";
      "Only return valid JSON. No explanation text.";
      "" ].

Definition user_prompt (template_text report_text : string) : string :=
  Str.join Str.nl
    [ "";
      "=== TEMPLATE TEXT ===";
      template_text;
      "";
      "=== REPORT TEXT ===";
      report_text;
      "" ].

(** [xs[0]]. *)
Definition first_item {A : Type} (xs : list A) : result A :=
  match xs with
  | x :: _ => Ok x
  | [] => Raise IndexError
  end.

(** [json.loads(raw)]: [raw] has to be a string, and well-formed. *)
Definition loads (X : externals) (raw : option string) : result json :=
  match raw with
  | Some text =>
      match json_loads X text with
      | Some data => Ok data
      | None => Raise JSONDecodeError
      end
  | None => Raise TypeError
  end.

(** The keyword arguments of the one call to the endpoint. *)
Definition completion_request (template_text report_text : string) : request :=
  Request "mistralai/mistral-7b-instruct:free"
    [("system", system_prompt);
     ("user", user_prompt template_text report_text)]
    [("type", "json_object")]
    0.2%Q.

Definition call_llm_to_get_field_mapping (X : externals)
    (template_text report_text : string) : action json :=
  client ← get_llm_client X;
  response ← lift (chat_completions_create X client
                     (completion_request template_text report_text));
  c ← lift (first_item (choices response));
  let raw := message_content c in
  data ← lift (loads X raw);
  lift (py_get data "fields" (JObj [])).

(** ** The action handler *)

(** [st.stop()]. *)
Definition st_stop {A : Type} : action A := lift (Raise StopException).

(** [with st.spinner(msg): body]. *)
Definition spinner {A : Type} (msg : string) (body : action A) : action A :=
  emit (StSpinner msg);; body.

(** A call into one of the three components, recorded as such. *)
Definition invoke {A : Type} (c : component) (body : action A) : action A :=
  emit (Invoked c);; body.

(** The body of [if st.button("Generate Filled Template"):]. *)
Definition generate (X : externals) (template_file : option docx_file)
    (pdf_files : list pdf_file) : action unit :=
  match template_file with
  | None => emit (StError "Please upload a DOCX template.");; st_stop
  | Some temp_bytes =>
      match pdf_files with
      | [] =>
          emit (StError "Please upload at least one PDF photo report.");;
          st_stop
      | _ :: _ =>
          reports_text ← spinner "Extracting PDF text..."
            (invoke Extractor (lift (extract_text_from_pdfs pdf_files)));
          template_text ← spinner "Reading template..."
            (invoke Extractor (lift (extract_text_from_docx temp_bytes)));
          field_mapping ← spinner "Calling LLM (DeepSeek Free)..."
            (invoke Gateway
               (call_llm_to_get_field_mapping X template_text reports_text));
          emit (StSubheader "Detected Field Mapping");;
          emit (StJson field_mapping);;
          result ← spinner "Generating DOCX..."
            (invoke Filler (lift (fill_template_docx temp_bytes field_mapping)));
          emit (StSuccess "Completed! Download your filled template:");;
          emit (StDownloadButton "⬇ Download Filled DOCX" result
                  "filled_template.docx")
      end
  end.

(** One run of the script: the handler runs when the button was pressed. *)
Definition script (X : externals) (clicked : bool)
    (template_file : option docx_file) (pdf_files : list pdf_file)
  : action unit :=
  if clicked then generate X template_file pdf_files else mret tt.

(** ** Notions the further properties are stated with *)

(** [old in s]: [old] starts at some position of [s]. *)
Fixpoint occurs (old s : string) : bool :=
  String.prefix old s
  || match s with
     | EmptyString => false
     | String _ s' => occurs old s'
     end.

(** A cell whose text the XML library accepts. *)
Definition cell_ok (c : cell) : Prop := xml_compatible (cell_text c) = true.

(** The values of the dict, the texts of the template: all are text the
    XML library accepts, as every text read from a file is. *)
Definition values_xml_compatible (m : list (string * string)) : bool :=
  forallb (fun kv => xml_compatible (snd kv)) m.

Definition doc_xml_compatible (doc : document) : bool :=
  forallb (fun p => xml_compatible (p_text p)) (doc_paragraphs doc)
  && forallb (fun t => forallb (fun c => xml_compatible (cell_text c))
                         (table_tcs t))
       (doc_tables doc).

(** No text of the template holds a carriage return. *)
Definition doc_has_no_cr (doc : document) : bool :=
  forallb (fun p => negb (occurs Str.cr (p_text p))) (doc_paragraphs doc)
  && forallb (fun t => forallb (fun c => negb (occurs Str.cr (cell_text c)))
                         (table_tcs t))
       (doc_tables doc).

(** [isinstance(v, str)]. *)
Definition is_str (v : json) : bool :=
  match v with
  | JStr _ => true
  | _ => false
  end.

(** The entries of a dict whose values are strings. *)
Definition str_members (members : list (string * json))
  : list (string * string) :=
  map (fun kv => (fst kv, match snd kv with JStr s => s | _ => "" end)) members.

(** The exception [replace] ends with, if any: it depends on the mapping
    alone. *)
Definition replace_error (field_values : json) : option exn :=
  match field_values with
  | JObj members =>
      if forallb (fun kv => is_str (snd kv)) members then None
      else Some TypeError
  | _ => Some AttributeError
  end.

(** The upload is not a PDF the reader can open. *)
Definition is_garbage (pdf : pdf_file) : bool :=
  match pdf with
  | PdfGarbage => true
  | PdfBytes _ => false
  end.

(** The events that record a call into a component, and those that hand a
    result to the user. *)
Definition is_invocation (ev : event) : bool :=
  match ev with
  | Invoked _ => true
  | _ => false
  end.

Definition is_output (ev : event) : bool :=
  match ev with
  | StJson _ | StDownloadButton _ _ _ => true
  | _ => false
  end.

(** [not isinstance(data, dict)]. *)
Definition not_a_dict (data : json) : bool :=
  match data with
  | JObj _ => false
  | _ => true
  end.

(** The cell objects the loops over [doc.tables], [table.rows] and
    [row.cells] pass, in order. *)
Definition all_cells (doc : document) : list cell :=
  doc_tables doc ≫= fun t => table_rows t ≫= cells_of (table_tcs t).

Definition has_paragraphs (c : cell) : Prop := cell_paragraphs c <> [].

(** No row yields a cell that it, or another row, yields as well: the
    table has no merged cells. *)
Definition no_merged_cells (doc : document) : bool :=
  forallb (fun t => bool_decide (NoDup (visited t))) (doc_tables doc).

(** Every cell of every table holds at least one paragraph, as the file
    format requires. *)
Definition cells_have_paragraphs (doc : document) : bool :=
  forallb (fun t =>
             forallb (fun c => match cell_paragraphs c with
                               | [] => false
                               | _ :: _ => true
                               end)
               (table_tcs t))
    (doc_tables doc).

(** ** A sample run

    Concrete uploads and collaborators, on which the statements below are
    instantiated. *)

Definition sample_template : document :=
  Document
    [Paragraph ["Insured: "; "{{NAME}}"]; Paragraph ["Date of loss: {{DATE}}"]]
    [Table
       [Cell [Paragraph ["Name"]];
        Cell [Paragraph ["{{NAME}}"]; Paragraph ["(as on policy)"]];
        Cell [Paragraph ["Remarks: {{NAME}}"]]]
       [Row [0; 1]; Row [2; 2]]].

Definition sample_reports : list pdf_file :=
  [PdfBytes [Page (Some "Insured Jane Doe"); Page None];
   PdfBytes [Page (Some "Loss on 2024-05-01")]].

(** The reply of a model that follows the instruction, an empty object, and
    a reply that is prose. *)
Definition reply_with_fields : string :=
  "{" +:+ Str.dq +:+ "fields" +:+ Str.dq +:+ ": {"
  +:+ Str.dq +:+ "{{NAME}}" +:+ Str.dq +:+ ": "
  +:+ Str.dq +:+ "Jane Doe" +:+ Str.dq +:+ "}}".

Definition reply_without_fields : string := "{}".

Definition reply_prose : string := "Sure! Here is the JSON you asked for.".

(** [json.loads] on the sample replies. *)
Definition sample_loads (text : string) : option json :=
  if String.eqb text reply_with_fields
  then Some (JObj [("fields", JObj [("{{NAME}}", JStr "Jane Doe")])])
  else if String.eqb text reply_without_fields
  then Some (JObj [])
  else None.

(** A process with or without the key, whose endpoint answers [reply]. *)
Definition sample_externals (key : option string) (reply : string) : externals :=
  Externals
    (fun name => if String.eqb name "OPENROUTER_API_KEY" then key else None)
    sample_loads
    (fun _ _ => Ok (Response [Choice (Some reply)])).

Definition fresh_session : session := Session None [].

(** A process whose model answers with a list where the mapping should
    be. *)
Definition bad_fields_externals : externals :=
  Externals
    (fun name =>
       if String.eqb name "OPENROUTER_API_KEY" then Some "sk-or-v1-test"
       else None)
    (fun _ => Some (JObj [("fields", JArr [JStr "Jane Doe"])]))
    (fun _ _ => Ok (Response [Choice (Some "...")])).

(** What the filler makes of the sample template and the sample mapping. *)
Definition sample_filled : docx_file :=
  DocxBytes
    (Document
       [Paragraph ["Insured: Jane Doe"]; Paragraph ["Date of loss: {{DATE}}"]]
       [Table
          [Cell [Paragraph ["Name"]];
           Cell [Paragraph ["Jane Doe" +:+ Str.nl +:+ "(as on policy)"]];
           Cell [Paragraph ["Remarks: Jane Doe"]]]
          [Row [0; 1]; Row [2; 2]]]).

(** A process with the key whose endpoint gives [answer], with a parser
    that also knows the empty array. *)
Definition answering_externals (answer : result response) : externals :=
  Externals
    (fun name =>
       if String.eqb name "OPENROUTER_API_KEY" then Some "sk-or-v1-test"
       else None)
    (fun text => if String.eqb text "[]" then Some (JArr []) else sample_loads text)
    (fun _ _ => answer).

Definition sample_key : string := "sk-or-v1-test".

Definition sample_client : client :=
  Client "https://openrouter.ai/api/v1" sample_key
    [("Authorization", "Bearer " +:+ sample_key);
     ("HTTP-Referer", "https://openrouter.ai");
     ("X-Title", "Insurance-GLR-Streamlit-App")].

Definition sample_report_text : string :=
  Str.join (Str.nl +:+ Str.nl)
    ["Insured Jane Doe"; ""; "Loss on 2024-05-01"].

Definition sample_template_text : string :=
  Str.join Str.nl
    ["Insured: {{NAME}}"; "Date of loss: {{DATE}}";
     "Name"; "{{NAME}}"; "(as on policy)";
     "Remarks: {{NAME}}"; "Remarks: {{NAME}}"].

(** * Properties *)

(** ** The definitions at work *)

Example replace_placeholder :
  replace (str_dict [("{{NAME}}", "Jane Doe")]) "Dear {{NAME}}, {{NAME}}!"
  = Ok "Dear Jane Doe, Jane Doe!".
Proof. reflexivity. Qed.

Example replace_by_nothing :
  replace (str_dict [("{{DATE}}", "")]) "Date of loss: {{DATE}}"
  = Ok "Date of loss: ".
Proof. reflexivity. Qed.

Example replace_does_not_overlap :
  Str.replace "aaa" "aa" "b" = "ba" /\ Str.replace "aaaa" "aa" "b" = "bb".
Proof. by split. Qed.

Example replace_empty_old :
  Str.replace "abc" "" "-" = "-a-b-c-" /\ Str.replace "" "" "-" = "-".
Proof. by split. Qed.

Example replace_needs_strings :
  replace (JObj [("{{AGE}}", JInt 42)]) "Age: {{AGE}}" = Raise TypeError
  /\ replace (JArr []) "Age: {{AGE}}" = Raise AttributeError.
Proof. by split. Qed.

Example sample_reports_text :
  extract_text_from_pdfs sample_reports = Ok sample_report_text.
Proof. reflexivity. Qed.

Example sample_template_lines :
  extract_text_from_docx (DocxBytes sample_template) = Ok sample_template_text.
Proof. reflexivity. Qed.

(** Assigning a text: a carriage return reads back as a line feed, and a
    character XML forbids makes the assignment raise. *)
Example assign_carriage_return :
  p_set_text (Paragraph ["x"; "y"]) ("a" +:+ Str.cr +:+ "b")
  = Ok (Paragraph ["a" +:+ Str.nl +:+ "b"]).
Proof. reflexivity. Qed.

Example assign_form_feed :
  cell_set_text (Cell []) (String "012"%char "")
  = Raise (ValueError
             "All strings must be XML compatible: Unicode or ASCII, no NULL bytes or control characters").
Proof. reflexivity. Qed.

(** A cell that a row yields twice is assigned twice. *)
Example merged_cell_filled_twice :
  fill_table (str_dict [("a", "aa")]) (Table [Cell [Paragraph ["a"]]] [Row [0; 0]])
  = Ok (Table [Cell [Paragraph ["aaaa"]]] [Row [0; 0]]).
Proof. reflexivity. Qed.

(** A complete run: both uploads present, the key set, a reply that follows
    the instruction. *)
Example sample_run :
  generate (sample_externals (Some sample_key) reply_with_fields)
    (Some (DocxBytes sample_template)) sample_reports fresh_session
  = (Session (Some sample_client)
       [StSpinner "Extracting PDF text..."; Invoked Extractor;
        StSpinner "Reading template..."; Invoked Extractor;
        StSpinner "Calling LLM (DeepSeek Free)..."; Invoked Gateway;
        StSubheader "Detected Field Mapping";
        StJson (JObj [("{{NAME}}", JStr "Jane Doe")]);
        StSpinner "Generating DOCX..."; Invoked Filler;
        StSuccess "Completed! Download your filled template:";
        StDownloadButton "⬇ Download Filled DOCX"
          (DocxBytes
             (Document
                [Paragraph ["Insured: Jane Doe"];
                 Paragraph ["Date of loss: {{DATE}}"]]
                [Table
                   [Cell [Paragraph ["Name"]];
                    Cell [Paragraph ["Jane Doe" +:+ Str.nl +:+ "(as on policy)"]];
                    Cell [Paragraph ["Remarks: Jane Doe"]]]
                   [Row [0; 1]; Row [2; 2]]]))
          "filled_template.docx"],
     Ok tt).
Proof. reflexivity. Qed.

(** ** Strings *)

Section StringFacts.

Implicit Types s t u old new : string.

Lemma sapp_cons (c : ascii) s t : String c s +:+ t = String c (s +:+ t).
Proof. reflexivity. Qed.

Lemma slength_app s t :
  String.length (s +:+ t) = String.length s + String.length t.
Proof. induction s as [|c s IH]; [done|]. rewrite sapp_cons. simpl. by rewrite IH. Qed.

Lemma chars_app s t :
  list_ascii_of_string (s +:+ t)
  = list_ascii_of_string s ++ list_ascii_of_string t.
Proof. induction s as [|c s IH]; [done|]. rewrite sapp_cons. simpl. by rewrite IH. Qed.

(** The skip counter of [Str.scan] is a jump: the scan resumes [k]
    characters further on. *)
Lemma scan_skip old new k s :
  Str.scan old new k s = Str.scan old new 0 (Str.drop k s).
Proof.
  revert k. induction s as [|c s IH]; intros [|k]; try reflexivity.
  simpl Str.drop. simpl Str.scan at 1. apply IH.
Qed.

Lemma scan_cons old new c s :
  Str.scan old new 0 (String c s)
  = if String.prefix old (String c s)
    then new +:+ Str.scan old new (String.length old - 1) s
    else String c (Str.scan old new 0 s).
Proof. reflexivity. Qed.

(** Where [old] occurs at the front, it is replaced and the scan goes on
    behind it. *)
Lemma replace_at_match s c old new :
  String.prefix (String c old) s = true ->
  Str.replace s (String c old) new
  = new +:+ Str.replace (Str.drop (String.length (String c old)) s) (String c old) new.
Proof.
  intros Hp. unfold Str.replace. destruct s as [|d s]; [done|].
  rewrite scan_cons, Hp. f_equal.
  rewrite scan_skip. simpl. by rewrite Nat.sub_0_r.
Qed.

(** Elsewhere the character is kept and the scan moves one step. *)
Lemma replace_at_mismatch s d c old new :
  String.prefix (String c old) (String d s) = false ->
  Str.replace (String d s) (String c old) new
  = String d (Str.replace s (String c old) new).
Proof. intros Hp. unfold Str.replace. by rewrite scan_cons, Hp. Qed.

(** With an empty [old], [new] precedes every character and closes the
    text. *)
Lemma interleave_chars new s :
  list_ascii_of_string (Str.interleave new s)
  = concat (map (fun c => list_ascii_of_string new ++ [c])
              (list_ascii_of_string s))
    ++ list_ascii_of_string new.
Proof.
  induction s as [|c s IH]; simpl; [done|].
  rewrite chars_app. simpl. rewrite IH.
  by rewrite <- !List.app_assoc.
Qed.

Lemma interleave_length new s :
  String.length (Str.interleave new s)
  = String.length s + S (String.length s) * String.length new.
Proof.
  induction s as [|c s IH]; simpl; [lia|].
  rewrite slength_app. simpl. rewrite IH. lia.
Qed.

Lemma interleave_changes new s : new <> "" -> Str.interleave new s <> s.
Proof.
  intros Hnew Heq. apply (f_equal String.length) in Heq.
  rewrite interleave_length in Heq.
  destruct new as [|c new]; [done|]. simpl in Heq. lia.
Qed.

End StringFacts.

(** ** Loops *)

Lemma rfold_app {A B : Type} (body : A -> B -> result A) acc xs ys :
  rfold body acc (xs ++ ys) = (acc' ← rfold body acc xs; rfold body acc' ys).
Proof.
  revert acc. induction xs as [|x xs IH]; intros acc; simpl; [done|].
  destruct (body acc x) as [acc'|e]; simpl; [apply IH|done].
Qed.

(** A loop whose body cannot raise is a plain fold. *)
Lemma rfold_pure {A B : Type} (body : A -> B -> result A) (f : A -> B -> A)
    acc xs :
  (forall a x, body a x = Ok (f a x)) ->
  rfold body acc xs = Ok (fold_left f xs acc).
Proof.
  intros Hbody. revert acc. induction xs as [|x xs IH]; intros acc; simpl; [done|].
  rewrite Hbody. simpl. apply IH.
Qed.

Lemma rmap_pure {A B : Type} (body : A -> result B) (f : A -> B) xs :
  (forall x, body x = Ok (f x)) -> rmap body xs = Ok (map f xs).
Proof.
  intros Hbody. induction xs as [|x xs IH]; simpl; [done|].
  by rewrite Hbody, IH.
Qed.

(** Appending in a loop builds the list of what was appended. *)
Lemma fold_left_append {A B : Type} (body : list B -> A -> list B)
    (emitted : A -> list B) xs acc :
  (forall acc x, body acc x = acc ++ emitted x) ->
  fold_left body xs acc = acc ++ (xs ≫= emitted).
Proof.
  intros Hbody. revert acc. induction xs as [|x xs IH]; intros acc; simpl.
  - by rewrite app_nil_r.
  - by rewrite IH, Hbody, <- List.app_assoc.
Qed.

Lemma fold_left_snoc {A B : Type} (f : A -> B) xs (acc : list B) :
  fold_left (fun acc x => acc ++ [f x]) xs acc = acc ++ map f xs.
Proof.
  revert acc. induction xs as [|x xs IH]; intros acc; simpl.
  - by rewrite app_nil_r.
  - by rewrite IH, <- List.app_assoc.
Qed.

(** ** Dicts *)

Lemma dict_get_absent members key :
  dict_get members key = None <-> key ∉ (fst <$> members).
Proof.
  induction members as [|[k v] members IH]; simpl.
  - split; [intros _; apply not_elem_of_nil|done].
  - rewrite not_elem_of_cons, <- IH.
    destruct (String.eqb_spec k key) as [->|Hne].
    + split; [done|]. by intros [? _].
    + split; [|by intros [_ ?]]. intros ?. split; [congruence|done].
Qed.

Lemma dict_get_present members key value :
  dict_get members key = Some value -> (key, value) ∈ members.
Proof.
  induction members as [|[k v] members IH]; simpl; [done|].
  destruct (String.eqb_spec k key) as [->|Hne].
  - intros [= ->]. by left.
  - intros Hget. right. by apply IH.
Qed.

(** ** Substitution *)

(** On a dict of strings [replace] does not raise. *)
Lemma replace_str_dict m text :
  replace (str_dict m) text = Ok (substitute m text).
Proof.
  unfold replace, str_dict, substitute. simpl. revert text.
  induction m as [|[k v] m IH]; intros text; simpl; [done|]. apply IH.
Qed.

Lemma substitute_app m1 m2 text :
  substitute (m1 ++ m2) text = substitute m2 (substitute m1 text).
Proof. apply fold_left_app. Qed.

(** ** Text the XML library accepts, and how it reads back *)

Section XmlText.

Implicit Types s t old new : string.

Lemma xml_compatible_app s t :
  xml_compatible (s +:+ t) = xml_compatible s && xml_compatible t.
Proof.
  induction s as [|c s IH]; [done|].
  rewrite sapp_cons. simpl. by rewrite IH, andb_assoc.
Qed.

Lemma xml_compatible_read_back s : xml_compatible (read_back s) = xml_compatible s.
Proof.
  induction s as [|c s IH]; [done|]. simpl. rewrite IH. f_equal.
  by destruct (Ascii.eqb_spec c "013") as [->|].
Qed.

Lemma xml_compatible_scan old new k s :
  xml_compatible new = true -> xml_compatible s = true ->
  xml_compatible (Str.scan old new k s) = true.
Proof.
  intros Hnew. revert k. induction s as [|c s IH]; intros k Hs; [done|].
  simpl in Hs. apply andb_true_iff in Hs as [Hc Hs].
  destruct k as [|k]; [|by apply IH].
  rewrite scan_cons. destruct (String.prefix old (String c s)).
  - rewrite xml_compatible_app, Hnew. by apply IH.
  - simpl. rewrite Hc. by apply IH.
Qed.

Lemma xml_compatible_interleave new s :
  xml_compatible new = true -> xml_compatible s = true ->
  xml_compatible (Str.interleave new s) = true.
Proof.
  intros Hnew. induction s as [|c s IH]; intros Hs; [done|].
  simpl in Hs. apply andb_true_iff in Hs as [Hc Hs].
  simpl. rewrite xml_compatible_app, Hnew. simpl. rewrite Hc. by apply IH.
Qed.

Lemma xml_compatible_replace s old new :
  xml_compatible new = true -> xml_compatible s = true ->
  xml_compatible (Str.replace s old new) = true.
Proof.
  intros Hnew Hs. destruct old; simpl.
  - by apply xml_compatible_interleave.
  - by apply xml_compatible_scan.
Qed.

Lemma xml_compatible_substitute (m : list (string * string)) s :
  forallb (fun kv => xml_compatible (snd kv)) m = true ->
  xml_compatible s = true ->
  xml_compatible (substitute m s) = true.
Proof.
  unfold substitute. revert s.
  induction m as [|[k v] m IH]; intros s Hm Hs; [done|].
  simpl in Hm. apply andb_true_iff in Hm as [Hv Hm].
  simpl. apply IH; [done|]. by apply xml_compatible_replace.
Qed.

Lemma xml_compatible_refilled (m : list (string * string)) s :
  forallb (fun kv => xml_compatible (snd kv)) m = true ->
  xml_compatible s = true ->
  xml_compatible (refilled m s) = true.
Proof.
  intros Hm Hs. unfold refilled.
  rewrite xml_compatible_read_back. by apply xml_compatible_substitute.
Qed.

Lemma read_back_app s t : read_back (s +:+ t) = read_back s +:+ read_back t.
Proof.
  induction s as [|c s IH]; [done|]. rewrite sapp_cons. simpl.
  by rewrite IH, sapp_cons.
Qed.

Lemma read_back_idem s : read_back (read_back s) = read_back s.
Proof.
  induction s as [|c s IH]; [done|]. simpl. rewrite IH. f_equal.
  destruct (Ascii.eqb_spec c "013") as [->|Hc]; [done|].
  by destruct (Ascii.eqb_spec c "013").
Qed.

End XmlText.

Lemma set_run_text_ok text :
  xml_compatible text = true -> set_run_text text = Ok (read_back text).
Proof. intros Hxml. unfold set_run_text. by rewrite Hxml. Qed.

Lemma set_run_text_raises text :
  xml_compatible text = false ->
  set_run_text text
  = Raise (ValueError
             "All strings must be XML compatible: Unicode or ASCII, no NULL bytes or control characters").
Proof. intros Hxml. unfold set_run_text. by rewrite Hxml. Qed.

(** ** Assignments to cells *)

(** A loop whose body cannot raise while an invariant holds is a plain
    fold. *)
Lemma rfold_pure_on {A B : Type} (P : A -> Prop) (body : A -> B -> result A)
    (f : A -> B -> A) acc xs :
  (forall a x, P a -> body a x = Ok (f a x)) ->
  (forall a x, P a -> P (f a x)) ->
  P acc ->
  rfold body acc xs = Ok (fold_left f xs acc).
Proof.
  intros Hbody Hkeep. revert acc.
  induction xs as [|x xs IH]; intros acc Hacc; simpl; [done|].
  rewrite Hbody by done. simpl. apply IH. by apply Hkeep.
Qed.

Lemma rmap_pure_on {A B : Type} (body : A -> result B) (f : A -> B) xs :
  Forall (fun x => body x = Ok (f x)) xs -> rmap body xs = Ok (map f xs).
Proof.
  induction 1 as [|x xs Hx _ IH]; simpl; [done|]. by rewrite Hx, IH.
Qed.

Lemma cell_text_refill m c : cell_text (refill m c) = refilled m (cell_text c).
Proof. reflexivity. Qed.

Lemma cell_text_refill_iter m n c :
  cell_text (Nat.iter n (refill m) c) = Nat.iter n (refilled m) (cell_text c).
Proof.
  induction n as [|n IH]; simpl; [done|]. by rewrite cell_text_refill, IH.
Qed.

Lemma insert_as_alter {A : Type} (f : A -> A) (l : list A) i x :
  l !! i = Some x -> <[i := f x]> l = alter f i l.
Proof.
  intros Hi. rewrite list_insert_alter. apply list_alter_ext; [|done].
  intros y Hy. congruence.
Qed.

Lemma alter_dangling {A : Type} (f : A -> A) (l : list A) i :
  l !! i = None -> alter f i l = l.
Proof.
  intros Hi. apply list_eq. intros j. rewrite list_lookup_alter.
  case_decide; [subst; by rewrite Hi|done].
Qed.

Lemma rfold_rows {A : Type} (body : A -> nat -> result A) acc (rows : list row) :
  rfold (fun acc r => rfold body acc (row_cells r)) acc rows
  = rfold body acc (rows ≫= row_cells).
Proof.
  revert acc. induction rows as [|r rows IH]; intros acc; simpl; [done|].
  rewrite rfold_app.
  destruct (rfold body acc (row_cells r)) as [acc'|e]; simpl; [apply IH|done].
Qed.

Section StringMapping.

(** A dict of strings that the XML library accepts. *)
Variable m : list (string * string).
Hypothesis Hvalues : forallb (fun kv => xml_compatible (snd kv)) m = true.

Lemma refill_ok c : cell_ok c -> cell_ok (refill m c).
Proof using Hvalues.
  unfold cell_ok. rewrite cell_text_refill. by apply xml_compatible_refilled.
Qed.

Lemma fill_cell_str_dict (tcs : list cell) i :
  Forall cell_ok tcs ->
  fill_cell (str_dict m) tcs i = Ok (alter (refill m) i tcs).
Proof using Hvalues.
  intros Htcs. unfold fill_cell. destruct (tcs !! i) as [c|] eqn:Hi.
  - rewrite replace_str_dict. simpl. unfold cell_set_text.
    rewrite set_run_text_ok.
    2:{ apply xml_compatible_substitute; [done|].
        exact (Forall_lookup_1 cell_ok tcs i c Htcs Hi). }
    simpl. f_equal. by apply (insert_as_alter (refill m)).
  - f_equal. symmetry. by apply alter_dangling.
Qed.

Lemma fill_table_str_dict t :
  Forall cell_ok (table_tcs t) ->
  fill_table (str_dict m) t
  = Ok (Table (fold_left (fun tcs i => alter (refill m) i tcs)
                 (visited t) (table_tcs t))
          (table_rows t)).
Proof using Hvalues.
  intros Htcs. unfold fill_table. rewrite rfold_rows.
  rewrite (rfold_pure_on (Forall cell_ok) _
             (fun tcs i => alter (refill m) i tcs)); [done| | |done].
  - intros tcs i Hok. by apply fill_cell_str_dict.
  - intros tcs i Hok. apply Forall_alter; [done|]. intros c _. apply refill_ok.
Qed.

(** What the filler makes of an opened document. *)
Lemma fill_document_str_dict doc :
  Forall (fun p => xml_compatible (p_text p) = true) (doc_paragraphs doc) ->
  Forall (fun t => Forall cell_ok (table_tcs t)) (doc_tables doc) ->
  fill_document (str_dict m) doc
  = Ok (Document
          (map (fun p => Paragraph [refilled m (p_text p)]) (doc_paragraphs doc))
          (map (fun t =>
                  Table (fold_left (fun tcs i => alter (refill m) i tcs)
                           (visited t) (table_tcs t))
                    (table_rows t))
             (doc_tables doc))).
Proof using Hvalues.
  intros Hps Htables. unfold fill_document.
  rewrite (rmap_pure_on _ (fun p => Paragraph [refilled m (p_text p)])).
  2:{ eapply Forall_impl; [exact Hps|]. intros p Hp. simpl.
      rewrite replace_str_dict. simpl. unfold p_set_text.
      rewrite set_run_text_ok; [done|]. by apply xml_compatible_substitute. }
  simpl. rewrite (rmap_pure_on _ (fun t =>
                    Table (fold_left (fun tcs i => alter (refill m) i tcs)
                             (visited t) (table_tcs t))
                      (table_rows t))); [done|].
  eapply Forall_impl; [exact Htables|]. intros t Ht. by apply fill_table_str_dict.
Qed.

End StringMapping.

Lemma alter_passes_length {A : Type} (f : A -> A) (refs : list nat) (l : list A) :
  length (fold_left (fun l i => alter f i l) refs l) = length l.
Proof.
  revert l. induction refs as [|i refs IH]; intros l; simpl; [done|].
  by rewrite IH, length_alter.
Qed.

Lemma alter_passes_lookup {A : Type} (f : A -> A) (refs : list nat) (l : list A) j :
  fold_left (fun l i => alter f i l) refs l !! j
  = Nat.iter (length (filter (fun i => i = j) refs)) f <$> l !! j.
Proof.
  revert l. induction refs as [|i refs IH]; intros l; simpl.
  - by destruct (l !! j).
  - rewrite IH. destruct (decide (i = j)) as [->|Hij].
    + rewrite filter_cons_True by done. rewrite list_lookup_alter_eq.
      destruct (l !! j) as [x|]; simpl; [|done].
      f_equal. symmetry. apply Nat.iter_succ_r.
    + rewrite filter_cons_False by done.
      by rewrite list_lookup_alter_ne.
Qed.

(** The conditions on a document, read off the check that computes them. *)
Lemma doc_xml_compatible_Forall doc :
  doc_xml_compatible doc = true ->
  Forall (fun p => xml_compatible (p_text p) = true) (doc_paragraphs doc)
  /\ Forall (fun t => Forall cell_ok (table_tcs t)) (doc_tables doc).
Proof.
  unfold doc_xml_compatible. intros [Hps Htables]%andb_true_iff. split.
  - rewrite forallb_forall in Hps. apply Forall_forall.
    intros p Hp%list_elem_of_In. by apply Hps.
  - rewrite forallb_forall in Htables. apply Forall_forall.
    intros t Ht%list_elem_of_In. specialize (Htables t Ht).
    rewrite forallb_forall in Htables. apply Forall_forall.
    intros c Hc%list_elem_of_In. by apply Htables.
Qed.

(** ** The document text extractor *)

Lemma or_empty_default x : or_empty x = default "" x.
Proof.
  destruct x as [s|]; simpl; [|done].
  destruct (String.eqb_spec s ""); by subst.
Qed.

Lemma pdf_loop acc (pagess : list (list page)) :
  rfold (fun text pdf =>
           pages ← PdfReader pdf;
           Ok (fold_left
                 (fun text page => text ++ [or_empty (extract_text page)])
                 pages text))
    acc (PdfBytes <$> pagess)
  = Ok (acc ++ map (fun pg => default "" (extract_text pg)) (concat pagess)).
Proof.
  revert acc. induction pagess as [|pages pagess IH]; intros acc; simpl.
  - by rewrite app_nil_r.
  - rewrite IH. f_equal.
    rewrite (fold_left_snoc (fun pg => or_empty (extract_text pg))).
    rewrite map_app, <- List.app_assoc. do 2 f_equal.
    apply map_ext. intros pg. apply or_empty_default.
Qed.

(** C2. The report text is the list of page texts, file after file in
    upload order and page after page within a file, joined by a blank line;
    a page without text stands in the list as the empty string, so the list
    has one piece per page. *)
Theorem extract_text_from_pdfs_pages (pagess : list (list page)) :
  exists pieces : list string,
    extract_text_from_pdfs (PdfBytes <$> pagess)
    = Ok (Str.join (Str.nl +:+ Str.nl) pieces)
    /\ length pieces = length (concat pagess)
    /\ Forall2 (fun pg piece =>
                  piece = match extract_text pg with
                          | Some text => text
                          | None => ""
                          end)
         (concat pagess) pieces.
Proof.
  exists (map (fun pg => default "" (extract_text pg)) (concat pagess)).
  split; [|split].
  - unfold extract_text_from_pdfs. by rewrite pdf_loop.
  - apply length_map.
  - apply Forall2_fmap_r, Forall_Forall2_diag, Forall_forall.
    intros pg _. simpl. by destruct (extract_text pg).
Qed.

(** C3. The template text is the list of lines joined by single newlines,
    where the lines are the texts of the paragraphs of the document, in
    order, followed by, for each table in order, each of its rows, each cell
    of the row and each paragraph of the cell. *)
Theorem extract_text_from_docx_order (doc : document) :
  extract_text_from_docx (DocxBytes doc)
  = Ok (Str.join Str.nl
          (map p_text (doc_paragraphs doc)
           ++ (doc_tables doc ≫= fun t =>
               table_rows t ≫= fun r =>
               cells_of (table_tcs t) r ≫= fun c =>
               map p_text (cell_paragraphs c)))).
Proof.
  unfold extract_text_from_docx. simpl. do 2 f_equal.
  rewrite (fold_left_snoc p_text). simpl.
  apply fold_left_append. intros acc t.
  apply fold_left_append. intros acc' r.
  apply fold_left_append. intros acc'' c.
  apply fold_left_snoc.
Qed.

(** ** The template filler *)

(** The claim of C1 as it is worded fails: the entry for ["B"] rewrites what
    the entry for ["A"] has produced. *)
Lemma replace_rescans_for_later_keys :
  replace (JObj [("A", JStr "B"); ("B", JStr "C")]) "A" = Ok "C"
  /\ replace (JObj [("A", JStr "B"); ("B", JStr "C")]) "A" <> Ok "B".
Proof. split; [reflexivity|discriminate]. Qed.

(** C1, amended. Each entry is applied once, in the iteration order of the
    dict, to the text the entries before it have left: a single entry is one
    [str.replace], and a dict split in two is the first part followed by the
    second on its result.  So for [{"A": "B", "B": "C"}] the text ["A"]
    becomes ["C"]; a replacement value is scanned again by the entries that
    follow and by no other: in the order [{"B": "C", "A": "B"}] the result is
    ["B"], and the entry [{"A": "AA"}] turns ["A"] into ["AA"]. *)
Theorem replace_in_iteration_order :
  (forall k v text,
     replace (str_dict [(k, v)]) text = Ok (Str.replace text k v))
  /\ (forall m1 m2 text,
        replace (str_dict (m1 ++ m2)) text
        = (text' ← replace (str_dict m1) text; replace (str_dict m2) text'))
  /\ replace (str_dict [("A", "B"); ("B", "C")]) "A" = Ok "C"
  /\ replace (str_dict [("B", "C"); ("A", "B")]) "A" = Ok "B"
  /\ replace (str_dict [("A", "AA")]) "A" = Ok "AA".
Proof.
  split; [|split; [|by repeat split]].
  - intros k v text. by rewrite replace_str_dict.
  - intros m1 m2 text. rewrite !replace_str_dict. simpl.
    by rewrite replace_str_dict, substitute_app.
Qed.

(** The claim of C9 as it is worded fails: a dict may hold the empty key
    with a non-empty value and still hand the text back unchanged, when
    a later entry removes what the empty key has inserted. *)
Lemma empty_key_undone :
  ("", "x") ∈ [("", "x"); ("x", "")]
  /\ "x" <> ""
  /\ replace (str_dict [("", "x"); ("x", "")]) "a" = Ok "a".
Proof. split; [left|split; [discriminate|reflexivity]]. Qed.

(** C9, amended. The entry with the empty key rewrites the text as the
    entries before it have left it: [v] is put in front of every character
    and once more behind the last, and the entries after it go on from
    there.  When the empty key is the only entry and [v] is not empty, that
    is the returned text and it differs from the original.  When [v] and the
    texts of the template hold only characters XML allows, the filler then
    assigns it to every paragraph, and to every cell that [row.cells] yields
    once, where it reads with each carriage return as a line feed. *)
Theorem empty_key_inserts_at_every_boundary (v : string) (Hv : v <> "") :
  (forall text,
     list_ascii_of_string (Str.replace text "" v)
     = concat (map (fun c => list_ascii_of_string v ++ [c])
                 (list_ascii_of_string text))
       ++ list_ascii_of_string v)
  /\ (forall m1 m2 text,
        replace (str_dict (m1 ++ ("", v) :: m2)) text
        = replace (str_dict m2) (Str.replace (substitute m1 text) "" v))
  /\ (forall text,
        replace (str_dict [("", v)]) text = Ok (Str.replace text "" v)
        /\ Str.replace text "" v <> text)
  /\ (forall doc,
        xml_compatible v = true -> doc_xml_compatible doc = true ->
        exists doc',
          fill_document (str_dict [("", v)]) doc = Ok doc'
          /\ map p_text (doc_paragraphs doc')
             = map (fun p => read_back (Str.replace (p_text p) "" v))
                 (doc_paragraphs doc)
          /\ Forall2 (fun t t' =>
                        forall j c,
                          table_tcs t !! j = Some c -> visits t j = 1 ->
                          exists c',
                            table_tcs t' !! j = Some c'
                            /\ cell_text c'
                               = read_back (Str.replace (cell_text c) "" v))
               (doc_tables doc) (doc_tables doc')).
Proof.
  split; [|split; [|split]].
  - intros text. apply interleave_chars.
  - intros m1 m2 text. rewrite !replace_str_dict. f_equal.
    by rewrite substitute_app.
  - intros text. split; [by rewrite replace_str_dict|].
    by apply interleave_changes.
  - intros doc Hxml [Hps Htables]%doc_xml_compatible_Forall.
    eexists. split.
    { apply fill_document_str_dict; [|done..]. simpl. by rewrite Hxml. }
    simpl. split.
    + rewrite map_map. by apply map_ext.
    + apply Forall2_fmap_r, Forall_Forall2_diag, Forall_forall.
      intros t _ j c Hj Hone. simpl.
      rewrite alter_passes_lookup, Hj. simpl. eexists. split; [done|].
      unfold visits in Hone. rewrite Hone. reflexivity.
Qed.

Lemma empty_key_inserts_at_every_boundary_witness :
  "-" <> ""
  /\ replace (str_dict [("", "-")]) "abc" = Ok (Str.replace "abc" "" "-")
  /\ Str.replace "abc" "" "-" <> "abc".
Proof.
  assert (Hv : "-" <> "") by discriminate.
  split; [exact Hv|].
  exact (proj1 (proj2 (proj2 (empty_key_inserts_at_every_boundary "-" Hv))) "abc").
Defined.

Lemma substitute_nil text : substitute [] text = text.
Proof. reflexivity. Qed.

(** Reading back once more changes nothing. *)
Lemma iter_refilled_nil n text :
  Nat.iter n (refilled []) text
  = match n with
    | 0 => text
    | S _ => read_back text
    end.
Proof.
  induction n as [|n IH]; [done|]. rewrite Nat.iter_succ, IH.
  unfold refilled. rewrite substitute_nil.
  destruct n; [done|apply read_back_idem].
Qed.

(** A text without carriage return reads back as it is. *)
Lemma read_back_no_cr text : occurs Str.cr text = false -> read_back text = text.
Proof.
  induction text as [|c text IH]; [done|]. intros Hcr.
  change (occurs Str.cr (String c text))
    with (String.prefix Str.cr (String c text) || occurs Str.cr text) in Hcr.
  apply orb_false_iff in Hcr as [Hhere Hrest].
  simpl. rewrite IH by done. f_equal.
  destruct (Ascii.eqb_spec c "013") as [->|]; [|done].
  by destruct text.
Qed.

(** The texts of the objects [row.cells] yields depend on the texts of the
    cells of the table only. *)
Lemma cells_of_texts (tcs tcs' : list cell) r :
  map cell_text tcs' = map cell_text tcs ->
  map cell_text (cells_of tcs' r) = map cell_text (cells_of tcs r).
Proof.
  intros Htexts. unfold cells_of.
  induction (row_cells r) as [|i refs IH]; simpl; [done|].
  assert (Hi : cell_text <$> tcs' !! i = cell_text <$> tcs !! i).
  { rewrite <- !list_lookup_fmap. by f_equal. }
  destruct (tcs' !! i) as [c'|], (tcs !! i) as [c|]; simplify_eq/=;
    [by rewrite Hi, IH | exact IH].
Qed.


(** What the empty dict makes of the cells of a table. *)
Lemma fill_empty_lookup (t : table) j :
  fold_left (fun tcs i => alter (refill []) i tcs) (visited t) (table_tcs t) !! j
  = Nat.iter (visits t j) (refill []) <$> table_tcs t !! j.
Proof. apply alter_passes_lookup. Qed.

Lemma doc_has_no_cr_Forall doc :
  doc_has_no_cr doc = true ->
  Forall (fun p => occurs Str.cr (p_text p) = false) (doc_paragraphs doc)
  /\ Forall (fun t => Forall (fun c => occurs Str.cr (cell_text c) = false)
                        (table_tcs t))
       (doc_tables doc).
Proof.
  unfold doc_has_no_cr. intros [Hps Htables]%andb_true_iff. split.
  - rewrite forallb_forall in Hps. apply Forall_forall.
    intros p Hp%list_elem_of_In. by apply negb_true_iff, Hps.
  - rewrite forallb_forall in Htables. apply Forall_forall.
    intros t Ht%list_elem_of_In. specialize (Htables t Ht).
    rewrite forallb_forall in Htables. apply Forall_forall.
    intros c Hc%list_elem_of_In. by apply negb_true_iff, Htables.
Qed.

(** The claim of C4 as it is worded fails on a template whose text holds a
    carriage return: the assignment stores it as a line break, which reads
    as a line feed. *)
Lemma empty_fill_rereads_carriage_return :
  fill_template_docx
    (DocxBytes (Document [Paragraph ["a" +:+ Str.cr +:+ "b"]] [])) (JObj [])
  = Ok (DocxBytes (Document [Paragraph ["a" +:+ Str.nl +:+ "b"]] []))
  /\ p_text (Paragraph ["a" +:+ Str.nl +:+ "b"])
     <> p_text (Paragraph ["a" +:+ Str.cr +:+ "b"]).
Proof. split; [reflexivity|discriminate]. Qed.

(** C4, amended. For a template whose texts hold only characters XML
    allows, filling with the empty dict returns a document in which every
    paragraph, and every cell a row yields, reads as in the template with
    each carriage return read as a line feed; the rows are the same and a
    cell no row yields is as before.  When no text of the template holds a
    carriage return, every paragraph and every cell reads exactly as in the
    template. *)
Theorem fill_empty_mapping_rereads_texts (doc : document)
    (Hxml : doc_xml_compatible doc = true) :
  exists doc',
    fill_template_docx (DocxBytes doc) (JObj []) = Ok (DocxBytes doc')
    /\ map p_text (doc_paragraphs doc')
       = map (fun p => read_back (p_text p)) (doc_paragraphs doc)
    /\ Forall2 (fun t t' =>
                  table_rows t' = table_rows t
                  /\ forall j c,
                       table_tcs t !! j = Some c ->
                       exists c',
                         table_tcs t' !! j = Some c'
                         /\ cell_text c'
                            = match visits t j with
                              | 0 => cell_text c
                              | S _ => read_back (cell_text c)
                              end)
         (doc_tables doc) (doc_tables doc')
    /\ (doc_has_no_cr doc = true ->
        map p_text (doc_paragraphs doc') = map p_text (doc_paragraphs doc)
        /\ Forall2 (fun t t' =>
                      map cell_text (table_tcs t') = map cell_text (table_tcs t)
                      /\ forall r,
                           map cell_text (cells_of (table_tcs t') r)
                           = map cell_text (cells_of (table_tcs t) r))
             (doc_tables doc) (doc_tables doc')).
Proof.
  destruct (doc_xml_compatible_Forall doc Hxml) as [Hps Htables].
  change (JObj []) with (str_dict []).
  unfold fill_template_docx. simpl.
  rewrite (fill_document_str_dict [] eq_refl doc Hps Htables). simpl.
  eexists. split; [reflexivity|]. simpl. split; [|split].
  - rewrite map_map. by apply map_ext.
  - apply Forall2_fmap_r, Forall_Forall2_diag, Forall_forall.
    intros t _. simpl. split; [done|]. intros j c Hj.
    rewrite fill_empty_lookup, Hj. simpl. eexists. split; [done|].
    by rewrite cell_text_refill_iter, iter_refilled_nil.
  - intros [Hps_cr Htables_cr]%doc_has_no_cr_Forall. split.
    + rewrite map_map. apply Forall_fmap_ext_1.
      eapply Forall_impl; [exact Hps_cr|]. intros p Hp. simpl.
      by apply read_back_no_cr.
    + apply Forall2_fmap_r, Forall_Forall2_diag.
      eapply Forall_impl; [exact Htables_cr|]. intros t Ht. simpl.
      assert (Htexts :
        map cell_text
          (fold_left (fun tcs i => alter (refill []) i tcs)
             (visited t) (table_tcs t))
        = map cell_text (table_tcs t)).
      { apply list_eq. intros j.
        rewrite !list_lookup_fmap, fill_empty_lookup.
        destruct (table_tcs t !! j) as [c|] eqn:Hj; simpl; [|done].
        rewrite cell_text_refill_iter, iter_refilled_nil.
        destruct (visits t j); [done|]. f_equal. apply read_back_no_cr.
        exact (Forall_lookup_1 _ _ j c Ht Hj). }
      split; [done|]. intros r. by apply cells_of_texts.
Qed.

Lemma fill_empty_mapping_rereads_texts_witness :
  doc_xml_compatible sample_template = true
  /\ doc_has_no_cr sample_template = true
  /\ exists doc',
       fill_template_docx (DocxBytes sample_template) (JObj [])
       = Ok (DocxBytes doc')
       /\ map p_text (doc_paragraphs doc')
          = map p_text (doc_paragraphs sample_template).
Proof.
  split; [reflexivity|]. split; [reflexivity|].
  destruct (fill_empty_mapping_rereads_texts sample_template eq_refl)
    as (doc' & Hfill & _ & _ & Hsame).
  exists doc'. split; [exact Hfill|]. exact (proj1 (Hsame eq_refl)).
Defined.

(** ** The shape of the filled document *)











(** ** The LLM gateway *)

(** An event that differs from each of the events shown is not among
    them. *)
Ltac not_shown :=
  rewrite ?not_elem_of_cons; repeat split; try discriminate;
  apply not_elem_of_nil.

Lemma new_llm_client_some X key :
  os_getenv X "OPENROUTER_API_KEY" = Some key -> key <> "" ->
  new_llm_client X
  = Ok (Client "https://openrouter.ai/api/v1" key
          [("Authorization", "Bearer " +:+ key);
           ("HTTP-Referer", "https://openrouter.ai");
           ("X-Title", "Insurance-GLR-Streamlit-App")]).
Proof.
  intros Hkey Hne. unfold new_llm_client. rewrite Hkey.
  by destruct (String.eqb_spec key "").
Qed.

(** A key that is set to the empty string is treated as a key that is not
    set. *)
Lemma new_llm_client_empty X :
  os_getenv X "OPENROUTER_API_KEY" = Some "" ->
  new_llm_client X = Raise (ValueError "OPENROUTER_API_KEY not found in .env").
Proof. intros Hkey. unfold new_llm_client. by rewrite Hkey. Qed.

(** C7. On the first use, when nothing is cached: without the key in the
    environment (the variable unset, or empty, which [not api_key] treats
    alike) [get_llm_client] raises the configuration error, caches nothing,
    and the gateway raises it before any request is made; with a key it
    returns a client that carries the key and the endpoint, and caches it. *)
Theorem get_llm_client_first_use (X : externals) (s : session)
    (Hfirst : cached_client s = None) :
  (os_getenv X "OPENROUTER_API_KEY" = None
   \/ os_getenv X "OPENROUTER_API_KEY" = Some "" ->
     get_llm_client X s
     = (s, Raise (ValueError "OPENROUTER_API_KEY not found in .env"))
     /\ forall template_text report_text,
          call_llm_to_get_field_mapping X template_text report_text s
          = (s, Raise (ValueError "OPENROUTER_API_KEY not found in .env")))
  /\ (forall key,
        os_getenv X "OPENROUTER_API_KEY" = Some key -> key <> "" ->
        exists c,
          get_llm_client X s = (Session (Some c) (shown s), Ok c)
          /\ api_key c = key
          /\ base_url c = "https://openrouter.ai/api/v1"
          /\ ("Authorization", "Bearer " +:+ key) ∈ default_headers c).
Proof.
  split.
  - intros Hkey.
    assert (Hget : get_llm_client X s
                   = (s, Raise (ValueError "OPENROUTER_API_KEY not found in .env"))).
    { unfold get_llm_client, new_llm_client. rewrite Hfirst.
      by destruct Hkey as [-> | ->]. }
    split; [done|]. intros template_text report_text.
    unfold call_llm_to_get_field_mapping, mbind, action_bind. by rewrite Hget.
  - intros key Hkey Hne. eexists. unfold get_llm_client.
    rewrite Hfirst, (new_llm_client_some X key Hkey Hne).
    split; [reflexivity|]. simpl. repeat split. by left.
Qed.

Lemma get_llm_client_first_use_witness :
  cached_client fresh_session = None
  /\ get_llm_client (sample_externals None reply_with_fields) fresh_session
     = (fresh_session, Raise (ValueError "OPENROUTER_API_KEY not found in .env"))
  /\ exists c,
       get_llm_client (sample_externals (Some sample_key) reply_with_fields)
         fresh_session
       = (Session (Some c) [], Ok c)
       /\ api_key c = sample_key.
Proof.
  split; [reflexivity|]. split.
  - apply (get_llm_client_first_use
             (sample_externals None reply_with_fields) fresh_session eq_refl).
    left. reflexivity.
  - destruct (proj2 (get_llm_client_first_use
                       (sample_externals (Some sample_key) reply_with_fields)
                       fresh_session eq_refl)
                sample_key eq_refl) as (c & Hget & Hkey & _).
    { discriminate. }
    exists c. split; [exact Hget | exact Hkey].
Defined.

Section GatewayReply.

(** A call of the gateway in which a client is at hand (cached, or built
    from the key on this first use) and the endpoint answers the one request
    with a response whose first choice has the text [raw]. *)
Variables (X : externals) (cache : option client) (c : client).
Variables (template_text report_text : string).
Variables (resp : response) (ch : choice) (rest : list choice) (raw : string).

Hypothesis Hclient :
  cache = Some c \/ (cache = None /\ new_llm_client X = Ok c).
Hypothesis Hanswer :
  chat_completions_create X c (completion_request template_text report_text)
  = Ok resp.
Hypothesis Hchoices : choices resp = ch :: rest.
Hypothesis Hcontent : message_content ch = Some raw.

Lemma gateway_client sh :
  get_llm_client X (Session cache sh) = (Session (Some c) sh, Ok c).
Proof using Hclient.
  unfold get_llm_client. simpl.
  destruct Hclient as [->|[-> ->]]; reflexivity.
Qed.

(** The gateway comes down to parsing [raw] and reading the key. *)
Lemma gateway_parses_reply sh :
  call_llm_to_get_field_mapping X template_text report_text (Session cache sh)
  = (Session (Some c) sh,
     data ← loads X (Some raw); py_get data "fields" (JObj [])).
Proof using Hclient Hanswer Hchoices Hcontent.
  unfold call_llm_to_get_field_mapping, mbind at 1 2 3 4, action_bind, lift.
  rewrite gateway_client, Hanswer, Hchoices. simpl. rewrite Hcontent.
  simpl. by destruct (json_loads X raw).
Qed.

(** C5. When the reply parses to a JSON object, the gateway returns the
    value the object has under ["fields"], and the empty dict when the object
    has no such key. *)
Theorem call_llm_returns_fields (members : list (string * json))
    (Hjson : json_loads X raw = Some (JObj members)) :
  forall sh,
    (forall value,
       dict_get members "fields" = Some value ->
       call_llm_to_get_field_mapping X template_text report_text (Session cache sh)
       = (Session (Some c) sh, Ok value))
    /\ ("fields" ∉ (fst <$> members) ->
        call_llm_to_get_field_mapping X template_text report_text (Session cache sh)
        = (Session (Some c) sh, Ok (JObj []))).
Proof using Hclient Hanswer Hchoices Hcontent.
  intros sh. rewrite gateway_parses_reply. unfold loads. rewrite Hjson. simpl.
  split; [intros value Hvalue|intros Hvalue%dict_get_absent]; by rewrite Hvalue.
Qed.

(** C6. When the reply is not JSON, the gateway raises the parse error;
    the handler, which catches nothing, ends with that error once the two
    extractions have gone through, without having called the filler and
    without offering a download. *)
Theorem call_llm_raises_on_malformed_reply
    (Hjson : json_loads X raw = None) :
  (forall sh,
     call_llm_to_get_field_mapping X template_text report_text (Session cache sh)
     = (Session (Some c) sh, Raise JSONDecodeError))
  /\ (forall sh temp_bytes pdf pdfs,
        extract_text_from_pdfs (pdf :: pdfs) = Ok report_text ->
        extract_text_from_docx temp_bytes = Ok template_text ->
        exists events,
          generate X (Some temp_bytes) (pdf :: pdfs) (Session cache sh)
          = (Session (Some c) (sh ++ events), Raise JSONDecodeError)
          /\ (Invoked Filler ∉ events)
          /\ (forall label data file_name,
                StDownloadButton label data file_name ∉ events)).
Proof using Hclient Hanswer Hchoices Hcontent.
  assert (Hraise : forall sh,
    call_llm_to_get_field_mapping X template_text report_text (Session cache sh)
    = (Session (Some c) sh, Raise JSONDecodeError)).
  { intros sh. rewrite gateway_parses_reply. unfold loads. by rewrite Hjson. }
  split; [exact Hraise|].
  intros sh temp_bytes pdf pdfs Hpdfs Hdocx.
  exists [StSpinner "Extracting PDF text..."; Invoked Extractor;
          StSpinner "Reading template..."; Invoked Extractor;
          StSpinner "Calling LLM (DeepSeek Free)..."; Invoked Gateway].
  split; [|split].
  - unfold generate, spinner, invoke, emit, lift, mbind, action_bind.
    cbn [cached_client shown]. rewrite Hpdfs, Hdocx, Hraise.
    by rewrite <- !List.app_assoc.
  - not_shown.
  - intros label data file_name. not_shown.
Qed.

End GatewayReply.

Lemma call_llm_returns_fields_witness :
  json_loads (sample_externals (Some sample_key) reply_with_fields)
    reply_with_fields
  = Some (JObj [("fields", JObj [("{{NAME}}", JStr "Jane Doe")])])
  /\ call_llm_to_get_field_mapping
       (sample_externals (Some sample_key) reply_with_fields)
       sample_template_text sample_report_text fresh_session
     = (Session (Some sample_client) [],
        Ok (JObj [("{{NAME}}", JStr "Jane Doe")]))
  /\ call_llm_to_get_field_mapping
       (sample_externals (Some sample_key) reply_without_fields)
       sample_template_text sample_report_text fresh_session
     = (Session (Some sample_client) [], Ok (JObj [])).
Proof.
  split; [reflexivity|]. split.
  - apply (call_llm_returns_fields
             (sample_externals (Some sample_key) reply_with_fields)
             None sample_client sample_template_text sample_report_text
             (Response [Choice (Some reply_with_fields)])
             (Choice (Some reply_with_fields)) [] reply_with_fields
             (or_intror (conj eq_refl eq_refl)) eq_refl eq_refl eq_refl
             [("fields", JObj [("{{NAME}}", JStr "Jane Doe")])] eq_refl []).
    reflexivity.
  - apply (call_llm_returns_fields
             (sample_externals (Some sample_key) reply_without_fields)
             None sample_client sample_template_text sample_report_text
             (Response [Choice (Some reply_without_fields)])
             (Choice (Some reply_without_fields)) [] reply_without_fields
             (or_intror (conj eq_refl eq_refl)) eq_refl eq_refl eq_refl
             [] eq_refl []).
    apply not_elem_of_nil.
Defined.

Lemma call_llm_raises_on_malformed_reply_witness :
  json_loads (sample_externals (Some sample_key) reply_prose) reply_prose = None
  /\ call_llm_to_get_field_mapping
       (sample_externals (Some sample_key) reply_prose)
       sample_template_text sample_report_text fresh_session
     = (Session (Some sample_client) [], Raise JSONDecodeError)
  /\ exists events,
       generate (sample_externals (Some sample_key) reply_prose)
         (Some (DocxBytes sample_template)) sample_reports fresh_session
       = (Session (Some sample_client) events, Raise JSONDecodeError)
       /\ (Invoked Filler ∉ events).
Proof.
  pose proof (call_llm_raises_on_malformed_reply
                (sample_externals (Some sample_key) reply_prose)
                None sample_client sample_template_text sample_report_text
                (Response [Choice (Some reply_prose)])
                (Choice (Some reply_prose)) [] reply_prose
                (or_intror (conj eq_refl eq_refl)) eq_refl eq_refl eq_refl
                eq_refl) as [Hcall Hrun].
  split; [reflexivity|]. split; [exact (Hcall [])|].
  destruct (Hrun [] (DocxBytes sample_template)
              (PdfBytes [Page (Some "Insured Jane Doe"); Page None])
              [PdfBytes [Page (Some "Loss on 2024-05-01")]]
              eq_refl eq_refl) as (events & Hgen & Hfiller & _).
  exists events. split; [exact Hgen | exact Hfiller].
Defined.

(** ** The action handler *)

(** C8. When the template is missing, or no report was uploaded, the
    handler shows the one error message that names what is missing and
    stops: nothing else is shown, no component is called, the cache is as
    before. *)
Theorem generate_stops_on_missing_upload (X : externals) (s : session)
    (template_file : option docx_file) (pdf_files : list pdf_file)
    (Hmissing : template_file = None \/ pdf_files = []) :
  exists msg,
    generate X template_file pdf_files s
    = (Session (cached_client s) (shown s ++ [StError msg]), Raise StopException)
    /\ script X true template_file pdf_files s
       = (Session (cached_client s) (shown s ++ [StError msg]),
          Raise StopException)
    /\ msg = match template_file with
             | None => "Please upload a DOCX template."
             | Some _ => "Please upload at least one PDF photo report."
             end
    /\ (forall c, Invoked c ∉ [StError msg]).
Proof.
  destruct template_file as [temp_bytes|].
  - destruct Hmissing as [?| ->]; [done|].
    eexists. repeat split. intros c. not_shown.
  - eexists. repeat split. intros c. not_shown.
Qed.

Lemma generate_stops_on_missing_upload_witness :
  (exists msg,
     generate (sample_externals (Some sample_key) reply_with_fields)
       None sample_reports fresh_session
     = (Session None [StError msg], Raise StopException))
  /\ (exists msg,
        generate (sample_externals (Some sample_key) reply_with_fields)
          (Some (DocxBytes sample_template)) [] fresh_session
        = (Session None [StError msg], Raise StopException)).
Proof.
  split.
  - destruct (generate_stops_on_missing_upload
                (sample_externals (Some sample_key) reply_with_fields)
                fresh_session None sample_reports (or_introl eq_refl))
      as (msg & Hgen & _).
    exists msg. exact Hgen.
  - destruct (generate_stops_on_missing_upload
                (sample_externals (Some sample_key) reply_with_fields)
                fresh_session (Some (DocxBytes sample_template)) []
                (or_intror eq_refl))
      as (msg & Hgen & _).
    exists msg. exact Hgen.
Defined.

(** * Further properties *)

(** ** Strings, continued *)

Section MoreStringFacts.

Implicit Types s t u old new : string.

Lemma sapp_nil_r s : s +:+ "" = s.
Proof. induction s as [|c s IH]; [done|]. by rewrite sapp_cons, IH. Qed.

Lemma sapp_assoc s t u : (s +:+ t) +:+ u = s +:+ (t +:+ u).
Proof. induction s as [|c s IH]; [done|]. by rewrite !sapp_cons, IH. Qed.

Lemma prefix_app old s : String.prefix old (old +:+ s) = true.
Proof.
  induction old as [|c old IH]; [by destruct s|].
  rewrite sapp_cons. simpl. by destruct (ascii_dec c c).
Qed.

Lemma prefix_split old s :
  String.prefix old s = true -> exists rest, s = old +:+ rest.
Proof.
  revert s. induction old as [|c old IH]; intros s Hp; [by exists s|].
  destruct s as [|d s]; [done|]. simpl in Hp.
  destruct (ascii_dec c d) as [->|]; [|done].
  destruct (IH s Hp) as [rest ->]. by exists rest.
Qed.

Lemma drop_app old s : Str.drop (String.length old) (old +:+ s) = s.
Proof. induction old as [|c old IH]; [by destruct s|]. by rewrite sapp_cons. Qed.

Lemma occurs_unfold old s :
  occurs old s
  = String.prefix old s
    || match s with
       | EmptyString => false
       | String _ s' => occurs old s'
       end.
Proof. by destruct s. Qed.

(** [occurs] is the substring relation. *)
Lemma occurs_spec old s :
  occurs old s = true <-> exists a b, s = a +:+ old +:+ b.
Proof.
  split.
  - induction s as [|d s IH]; rewrite occurs_unfold.
    + rewrite orb_false_r. intros [rest ->]%prefix_split. by exists "", rest.
    + intros [[rest ->]%prefix_split | Hs]%orb_true_iff; [by exists "", rest|].
      destruct (IH Hs) as (a & b & ->). by exists (String d a), b.
  - intros (a & b & ->). induction a as [|d a IH].
    + rewrite occurs_unfold. change ("" +:+ old +:+ b) with (old +:+ b).
      by rewrite prefix_app.
    + rewrite sapp_cons, occurs_unfold, IH. apply orb_true_r.
Qed.

End MoreStringFacts.

(** ** [str.replace], continued *)

(** X1. For a non-empty [old], [str.replace] is the scan from the left that
    these three equations describe: the empty text stays empty; where [old]
    stands at the front, [new] is written and the scan goes on behind the
    occurrence; elsewhere the first character is kept and the scan goes on
    behind it. *)
Theorem replace_equations (old new : string) (Hold : old <> "") :
  Str.replace "" old new = ""
  /\ (forall s, Str.replace (old +:+ s) old new = new +:+ Str.replace s old new)
  /\ (forall d s,
        String.prefix old (String d s) = false ->
        Str.replace (String d s) old new = String d (Str.replace s old new)).
Proof.
  destruct old as [|c old]; [done|]. split; [done|]. split.
  - intros s. rewrite replace_at_match by apply prefix_app.
    by rewrite drop_app.
  - intros d s. apply replace_at_mismatch.
Qed.

Lemma replace_equations_witness :
  "{{NAME}}" <> ""
  /\ Str.replace ("{{NAME}}" +:+ " and {{NAME}}") "{{NAME}}" "Jane"
     = "Jane" +:+ Str.replace " and {{NAME}}" "{{NAME}}" "Jane".
Proof.
  assert (Hold : "{{NAME}}" <> "") by discriminate.
  split; [exact Hold|].
  exact (proj1 (proj2 (replace_equations "{{NAME}}" "Jane" Hold)) " and {{NAME}}").
Defined.

Lemma replace_absent (text old new : string) :
  occurs old text = false -> Str.replace text old new = text.
Proof.
  destruct old as [|c old].
  - rewrite occurs_unfold. by destruct text.
  - induction text as [|d text IH]; [done|].
    rewrite occurs_unfold. intros [Hp Hrest]%orb_false_iff.
    rewrite replace_at_mismatch by done. by rewrite IH.
Qed.

(** X2. A mapping none of whose keys occurs in the text hands the text back
    as it is: placeholders the text does not contain have no effect, whatever
    their values. *)
Theorem replace_without_occurrence (m : list (string * string)) (text : string)
    (Habsent : forallb (fun kv => negb (occurs (fst kv) text)) m = true) :
  replace (str_dict m) text = Ok text.
Proof.
  rewrite replace_str_dict. f_equal. unfold substitute.
  induction m as [|[k v] m IH]; simpl in *; [done|].
  apply andb_true_iff in Habsent as [Hk Hm].
  rewrite replace_absent by by apply negb_true_iff. by apply IH.
Qed.

Lemma replace_without_occurrence_witness :
  forallb (fun kv => negb (occurs (fst kv) "Date of loss: {{DATE}}"))
    [("{{NAME}}", "Jane Doe"); ("{{POLICY}}", "")] = true
  /\ replace (str_dict [("{{NAME}}", "Jane Doe"); ("{{POLICY}}", "")])
       "Date of loss: {{DATE}}"
     = Ok "Date of loss: {{DATE}}".
Proof.
  split; [reflexivity|].
  apply (replace_without_occurrence
           [("{{NAME}}", "Jane Doe"); ("{{POLICY}}", "")]
           "Date of loss: {{DATE}}").
  reflexivity.
Defined.

(** ** Mappings of any type *)

Lemma str_dict_members members :
  forallb (fun kv => is_str (snd kv)) members = true ->
  JObj members = str_dict (str_members members).
Proof.
  intros Hstr. unfold str_dict, str_members. f_equal.
  induction members as [|[k v] members IH]; simpl in *; [done|].
  apply andb_true_iff in Hstr as [Hv Hrest].
  destruct v; try done. by rewrite <- IH.
Qed.

Lemma rfold_py_replace_type_error members text :
  forallb (fun kv => is_str (snd kv)) members = false ->
  rfold (fun text kv => py_replace text (fst kv) (snd kv)) text members
  = Raise TypeError.
Proof.
  revert text. induction members as [|[k v] members IH]; intros text; simpl; [done|].
  destruct v; simpl; try done. apply IH.
Qed.

Lemma replace_by_type (field_values : json) (text : string) :
  replace field_values text
  = match replace_error field_values with
    | Some e => Raise e
    | None =>
        match field_values with
        | JObj members => Ok (substitute (str_members members) text)
        | _ => Ok text
        end
    end.
Proof.
  destruct field_values as [| | | | |items|members]; try reflexivity.
  unfold replace_error.
  destruct (forallb (fun kv => is_str (snd kv)) members) eqn:Hstr.
  - rewrite (str_dict_members members Hstr) at 1. apply replace_str_dict.
  - unfold replace. simpl. by apply rfold_py_replace_type_error.
Qed.

(** X3. Whether [replace] raises, and what, is decided by the mapping and
    not by the text: a value that is not a dict raises [AttributeError], a
    dict with a value that is not a string raises [TypeError] (also when the
    key of that value does not occur in the text), and a dict of strings
    returns the substituted text. *)
Theorem replace_outcome (field_values : json) (text : string) :
  replace field_values text
  = match replace_error field_values with
    | Some e => Raise e
    | None =>
        match field_values with
        | JObj members => Ok (substitute (str_members members) text)
        | _ => Ok text
        end
    end.
Proof. apply replace_by_type. Qed.

(** ** The template filler, continued *)

Lemma omap_rows {A : Type} (f : nat -> option A) (rows : list row) :
  omap f (rows ≫= row_cells) = rows ≫= fun r => omap f (row_cells r).
Proof.
  induction rows as [|r rows IH]; [done|].
  change ((r :: rows) ≫= row_cells) with (row_cells r ++ (rows ≫= row_cells)).
  by rewrite omap_app, IH.
Qed.

Section BadMapping.

(** A mapping on which [replace] raises [e]. *)
Variables (field_values : json) (e : exn).
Hypothesis Hbad : replace_error field_values = Some e.

Lemma replace_bad text : replace field_values text = Raise e.
Proof using Hbad. by rewrite replace_by_type, Hbad. Qed.

Lemma fill_cell_bad (tcs : list cell) (i : nat) :
  fill_cell field_values tcs i
  = match tcs !! i with
    | Some _ => Raise e
    | None => Ok tcs
    end.
Proof using Hbad.
  unfold fill_cell. destruct (tcs !! i) as [c|]; [|done]. by rewrite replace_bad.
Qed.

Lemma fill_refs_bad (tcs : list cell) (refs : list nat) :
  rfold (fill_cell field_values) tcs refs
  = match omap (fun i => tcs !! i) refs with
    | [] => Ok tcs
    | _ :: _ => Raise e
    end.
Proof using Hbad.
  induction refs as [|i refs IH]; [done|].
  cbn [rfold omap list_omap]. rewrite fill_cell_bad.
  destruct (tcs !! i) as [c|]; [done|apply IH].
Qed.

Lemma fill_table_bad (t : table) :
  fill_table field_values t
  = match table_rows t ≫= cells_of (table_tcs t) with
    | [] => Ok t
    | _ :: _ => Raise e
    end.
Proof using Hbad.
  unfold fill_table. rewrite rfold_rows, fill_refs_bad, omap_rows.
  change (fun r => omap (fun i => table_tcs t !! i) (row_cells r))
    with (cells_of (table_tcs t)).
  destruct (table_rows t ≫= cells_of (table_tcs t)); [by destruct t|done].
Qed.

Lemma fill_tables_bad (tables : list table) :
  rmap (fill_table field_values) tables
  = match tables ≫= (fun t => table_rows t ≫= cells_of (table_tcs t)) with
    | [] => Ok tables
    | _ :: _ => Raise e
    end.
Proof using Hbad.
  induction tables as [|t tables IH]; [done|].
  cbn [rmap]. rewrite fill_table_bad, IH.
  change ((t :: tables) ≫= (fun t => table_rows t ≫= cells_of (table_tcs t)))
    with ((table_rows t ≫= cells_of (table_tcs t))
          ++ (tables ≫= (fun t => table_rows t ≫= cells_of (table_tcs t)))).
  destruct (table_rows t ≫= cells_of (table_tcs t)); [|done].
  by destruct (tables ≫= (fun t => table_rows t ≫= cells_of (table_tcs t))).
Qed.

(** X4. With a mapping of the wrong type the filler raises the exception of
    [replace] as soon as the template has a paragraph, or a table cell that
    a row yields; a template with neither is returned as it is and the
    mapping goes unnoticed. *)
Theorem fill_with_bad_mapping (doc : document) :
  fill_template_docx (DocxBytes doc) field_values
  = match doc_paragraphs doc, all_cells doc with
    | [], [] => Ok (DocxBytes doc)
    | _, _ => Raise e
    end.
Proof using Hbad.
  unfold fill_template_docx, fill_document, all_cells. simpl.
  destruct (doc_paragraphs doc) as [|p ps] eqn:Hps; simpl.
  - rewrite fill_tables_bad.
    destruct (doc_tables doc ≫= _) eqn:Hcells; simpl; [|done].
    destruct doc; simpl in *. by subst.
  - by rewrite replace_bad.
Qed.

End BadMapping.

Lemma fill_with_bad_mapping_witness :
  replace_error (JObj [("{{AGE}}", JInt 42)]) = Some TypeError
  /\ fill_template_docx (DocxBytes sample_template) (JObj [("{{AGE}}", JInt 42)])
     = Raise TypeError
  /\ fill_template_docx (DocxBytes (Document [] [])) (JNull)
     = Ok (DocxBytes (Document [] [])).
Proof.
  split; [reflexivity|]. split.
  - exact (fill_with_bad_mapping (JObj [("{{AGE}}", JInt 42)]) TypeError
             eq_refl sample_template).
  - exact (fill_with_bad_mapping JNull AttributeError eq_refl (Document [] [])).
Defined.

Lemma cells_xml_compatible_Forall (tcs : list cell) :
  forallb (fun c => xml_compatible (cell_text c)) tcs = true ->
  Forall cell_ok tcs.
Proof.
  rewrite forallb_forall. intros Htcs. apply Forall_forall.
  intros c Hc%list_elem_of_In. by apply Htcs.
Qed.

(** X5. What the filler does to the cells of a table, when the values of
    the dict and the texts of the cells hold only characters XML allows:
    the rows are kept, and the cell behind a reference is assigned once for
    every time a row yields it.  A cell no row yields is left as it is; a
    cell yielded [n] times reads as the text substituted and read back [n]
    times over, so a merged cell is substituted once per grid position it
    spans, and it ends as a single paragraph with a single run. *)
Theorem fill_table_passes (m : list (string * string)) (t : table)
    (Hvalues : values_xml_compatible m = true)
    (Hcells :
       forallb (fun c => xml_compatible (cell_text c)) (table_tcs t) = true) :
  exists t',
    fill_table (str_dict m) t = Ok t'
    /\ table_rows t' = table_rows t
    /\ forall j c,
         table_tcs t !! j = Some c ->
         exists c',
           table_tcs t' !! j = Some c'
           /\ cell_text c'
              = Nat.iter (visits t j)
                  (fun text => read_back (substitute m text)) (cell_text c)
           /\ (visits t j = 0 -> c' = c)
           /\ (0 < visits t j -> cell_paragraphs c' = [Paragraph [cell_text c']]).
Proof.
  eexists. split.
  { apply fill_table_str_dict; [done|]. by apply cells_xml_compatible_Forall. }
  simpl. split; [done|].
  intros j c Hj. rewrite alter_passes_lookup, Hj. simpl.
  eexists. split; [done|]. fold (visits t j).
  split; [apply cell_text_refill_iter|]. split.
  - by intros ->.
  - intros Hpos. destruct (visits t j) as [|n]; [lia|]. reflexivity.
Qed.

Lemma fill_table_passes_witness :
  values_xml_compatible [("a", "a" +:+ Str.cr)] = true
  /\ exists t',
       fill_table (str_dict [("a", "a" +:+ Str.cr)])
         (Table [Cell [Paragraph ["a"]]; Cell [Paragraph ["a"; "b"]]] [Row [0; 0]])
       = Ok t'
       /\ (map cell_text (table_tcs t')
           = ["a" +:+ Str.nl +:+ Str.nl; "ab"]).
Proof.
  split; [reflexivity|].
  destruct (fill_table_passes [("a", "a" +:+ Str.cr)]
              (Table [Cell [Paragraph ["a"]]; Cell [Paragraph ["a"; "b"]]]
                 [Row [0; 0]])
              eq_refl eq_refl)
    as (t' & Hfill & _).
  exists t'. split; [exact Hfill|].
  vm_compute in Hfill. injection Hfill as <-. reflexivity.
Defined.

(** X6. When the values of the dict and the texts of the template hold only
    characters XML allows, every paragraph of the filled document is a
    single run that holds the substituted text of the template's paragraph
    as it reads back: the boundaries between the runs of the template are
    gone, also when the mapping is empty. *)
Theorem fill_collapses_runs (m : list (string * string)) (doc : document)
    (Hvalues : values_xml_compatible m = true)
    (Hxml : doc_xml_compatible doc = true) :
  exists doc',
    fill_template_docx (DocxBytes doc) (str_dict m) = Ok (DocxBytes doc')
    /\ Forall2 (fun p p' => runs p' = [read_back (substitute m (p_text p))])
         (doc_paragraphs doc) (doc_paragraphs doc').
Proof.
  destruct (doc_xml_compatible_Forall doc Hxml) as [Hps Htables].
  unfold fill_template_docx. simpl.
  rewrite (fill_document_str_dict m Hvalues doc Hps Htables). simpl.
  eexists. split; [reflexivity|]. simpl.
  apply Forall2_fmap_r, Forall_Forall2_diag, Forall_forall. by intros p _.
Qed.

Lemma fill_collapses_runs_witness :
  values_xml_compatible [("{{NAME}}", "Jane Doe")] = true
  /\ doc_xml_compatible sample_template = true
  /\ exists doc',
       fill_template_docx (DocxBytes sample_template)
         (str_dict [("{{NAME}}", "Jane Doe")])
       = Ok (DocxBytes doc')
       /\ map runs (doc_paragraphs doc')
          = [["Insured: Jane Doe"]; ["Date of loss: {{DATE}}"]].
Proof.
  split; [reflexivity|]. split; [reflexivity|].
  destruct (fill_collapses_runs [("{{NAME}}", "Jane Doe")] sample_template
              eq_refl eq_refl)
    as (doc' & Hfill & _).
  exists doc'. split; [exact Hfill|].
  vm_compute in Hfill. injection Hfill as <-. reflexivity.
Defined.

(** ** Joined lines *)

Section JoinFacts.

Variable sep : string.

Lemma join_cons x y (ys : list string) :
  Str.join sep (x :: y :: ys) = x +:+ sep +:+ Str.join sep (y :: ys).
Proof. reflexivity. Qed.

Lemma join_app (xs ys : list string) :
  xs <> [] -> ys <> [] ->
  Str.join sep (xs ++ ys) = Str.join sep xs +:+ sep +:+ Str.join sep ys.
Proof.
  intros Hxs Hys. induction xs as [|x [|x' xs] IH]; [done| |].
  - destruct ys; [done|]. reflexivity.
  - change ((x :: x' :: xs) ++ ys) with (x :: x' :: (xs ++ ys)).
    rewrite !join_cons. change (x' :: xs ++ ys) with ((x' :: xs) ++ ys).
    rewrite IH by done. by rewrite !sapp_assoc.
Qed.

(** A group of lines may be joined before the whole is. *)
Lemma join_group (pre g rest : list string) :
  g <> [] ->
  Str.join sep (pre ++ g ++ rest) = Str.join sep (pre ++ Str.join sep g :: rest).
Proof.
  intros Hg.
  assert (Hhead : Str.join sep (g ++ rest) = Str.join sep (Str.join sep g :: rest)).
  { destruct rest as [|r rest]; [by rewrite app_nil_r|].
    by rewrite join_app, join_cons. }
  destruct pre as [|p pre]; [done|].
  rewrite !(join_app (p :: pre)); [by rewrite Hhead|done..|].
  by destruct g.
Qed.

End JoinFacts.

Lemma bind_bind {A B C : Type} (f : A -> list B) (g : B -> list C) (l : list A) :
  (l ≫= f) ≫= g = l ≫= fun x => f x ≫= g.
Proof.
  induction l as [|x l IH]; [done|]. by rewrite !bind_cons, bind_app, IH.
Qed.

Lemma map_bind {A B C : Type} (f : A -> list B) (h : B -> C) (l : list A) :
  map h (l ≫= f) = l ≫= fun x => map h (f x).
Proof.
  induction l as [|x l IH]; [done|]. by rewrite !bind_cons, map_app, IH.
Qed.

(** ** The template text, by paragraphs and cells *)

Lemma join_cells (pre : list string) (cells : list cell) :
  Forall has_paragraphs cells ->
  Str.join Str.nl (pre ++ (cells ≫= fun c => map p_text (cell_paragraphs c)))
  = Str.join Str.nl (pre ++ map cell_text cells).
Proof.
  intros Hcells. revert pre.
  induction Hcells as [|c cells Hc _ IH]; intros pre; [done|].
  rewrite bind_cons. simpl map.
  rewrite join_group.
  2:{ unfold has_paragraphs in Hc. by destruct (cell_paragraphs c). }
  change (pre ++ ?x :: ?l) with (pre ++ [x] ++ l).
  rewrite !List.app_assoc. apply IH.
Qed.

Lemma docx_lines (doc : document) :
  extract_text_from_docx (DocxBytes doc)
  = Ok (Str.join Str.nl
          (map p_text (doc_paragraphs doc)
           ++ (all_cells doc ≫= fun c => map p_text (cell_paragraphs c)))).
Proof.
  unfold extract_text_from_docx, all_cells. simpl. do 2 f_equal.
  rewrite (fold_left_snoc p_text). simpl. rewrite bind_bind.
  apply fold_left_append. intros acc t. rewrite bind_bind.
  apply fold_left_append. intros acc' r.
  apply fold_left_append. intros acc'' c.
  apply fold_left_snoc.
Qed.

Lemma cells_of_Forall (P : cell -> Prop) (tcs : list cell) (r : row) :
  Forall P tcs -> Forall P (cells_of tcs r).
Proof.
  intros Htcs. unfold cells_of.
  induction (row_cells r) as [|i refs IH]; simpl; [done|].
  destruct (tcs !! i) as [c|] eqn:Hi; [|exact IH].
  constructor; [|exact IH]. exact (Forall_lookup_1 P tcs i c Htcs Hi).
Qed.

Lemma all_cells_Forall (P : cell -> Prop) (doc : document) :
  Forall (fun t => Forall P (table_tcs t)) (doc_tables doc) ->
  Forall P (all_cells doc).
Proof.
  intros Hdoc. unfold all_cells. apply Forall_bind.
  eapply Forall_impl; [exact Hdoc|]. intros t Ht. simpl.
  apply Forall_bind, Forall_forall. intros r _. by apply cells_of_Forall.
Qed.

Lemma docx_text_by_cells (doc : document) :
  Forall (fun t => Forall has_paragraphs (table_tcs t)) (doc_tables doc) ->
  extract_text_from_docx (DocxBytes doc)
  = Ok (Str.join Str.nl
          (map p_text (doc_paragraphs doc) ++ map cell_text (all_cells doc))).
Proof.
  intros Hdoc. rewrite docx_lines. f_equal.
  by apply join_cells, all_cells_Forall.
Qed.

Lemma cells_have_paragraphs_Forall (doc : document) :
  cells_have_paragraphs doc = true ->
  Forall (fun t => Forall has_paragraphs (table_tcs t)) (doc_tables doc).
Proof.
  unfold cells_have_paragraphs. rewrite forallb_forall, Forall_forall.
  intros Hdoc t Ht%list_elem_of_In. specialize (Hdoc t Ht).
  rewrite forallb_forall in Hdoc. apply Forall_forall.
  intros c Hc%list_elem_of_In. specialize (Hdoc c Hc).
  unfold has_paragraphs. by destruct (cell_paragraphs c).
Qed.

(** X7. In a template whose cells all hold a paragraph, the extracted text
    is what [p.text] reads for every paragraph followed by what [cell.text]
    reads for every cell the rows yield, joined by single newlines: the
    paragraphs inside a cell and the lines inside a paragraph cannot be told
    apart in it. *)
Theorem extract_text_from_docx_by_cells (doc : document)
    (Hcells : cells_have_paragraphs doc = true) :
  extract_text_from_docx (DocxBytes doc)
  = Ok (Str.join Str.nl
          (map p_text (doc_paragraphs doc) ++ map cell_text (all_cells doc))).
Proof. by apply docx_text_by_cells, cells_have_paragraphs_Forall. Qed.

Lemma extract_text_from_docx_by_cells_witness :
  cells_have_paragraphs sample_template = true
  /\ extract_text_from_docx (DocxBytes sample_template)
     = Ok (Str.join Str.nl
             (map p_text (doc_paragraphs sample_template)
              ++ map cell_text (all_cells sample_template))).
Proof.
  split; [reflexivity|].
  apply (extract_text_from_docx_by_cells sample_template). reflexivity.
Defined.

(** ** Extraction after filling *)

Lemma alter_passes_Forall {A : Type} (P : A -> Prop) (f : A -> A)
    (refs : list nat) (l : list A) :
  (forall x, P x -> P (f x)) ->
  Forall P l -> Forall P (fold_left (fun l i => alter f i l) refs l).
Proof.
  intros Hf. revert l. induction refs as [|i refs IH]; intros l Hl; [done|].
  simpl. apply IH. apply Forall_alter; [done|]. intros x _. apply Hf.
Qed.

Lemma read_back_join sep (pieces : list string) :
  read_back (Str.join sep pieces)
  = Str.join (read_back sep) (map read_back pieces).
Proof.
  induction pieces as [|x [|y pieces] IH]; [done..|].
  rewrite join_cons. cbn [map]. rewrite join_cons.
  by rewrite !read_back_app, IH.
Qed.

Lemma filter_present (i : nat) (l : list nat) :
  i ∈ l -> exists n, length (filter (fun x => x = i) l) = S n.
Proof.
  induction l as [|x l IH]; [by intros ?%elem_of_nil|].
  destruct (decide (x = i)) as [->|Hne].
  - intros _. rewrite filter_cons_True by done. by eexists.
  - intros [?|Hi]%elem_of_cons; [congruence|].
    rewrite filter_cons_False by done. by apply IH.
Qed.

Lemma omap_texts_on (g : string -> string) (f f' : nat -> option cell)
    (refs : list nat) :
  Forall (fun i => cell_text <$> f' i = (fun c => g (cell_text c)) <$> f i) refs ->
  map cell_text (omap f' refs) = map (fun c => g (cell_text c)) (omap f refs).
Proof.
  induction 1 as [|i refs Hi _ IH]; [done|].
  cbn [omap list_omap].
  destruct (f' i) as [c'|], (f i) as [c|]; simplify_eq/=;
    [by rewrite Hi; f_equal | exact IH].
Qed.

(** After the empty dict every yielded cell reads as read back. *)
Lemma cells_of_reread (t : table) (r : row) :
  r ∈ table_rows t ->
  map cell_text
    (cells_of (fold_left (fun tcs i => alter (refill []) i tcs)
                 (visited t) (table_tcs t)) r)
  = map (fun c => read_back (cell_text c)) (cells_of (table_tcs t) r).
Proof.
  intros Hr. unfold cells_of. apply omap_texts_on, Forall_forall.
  intros i Hi. rewrite alter_passes_lookup.
  destruct (filter_present i (visited t)) as [n Hn].
  { unfold visited. apply list_elem_of_bind. by exists r. }
  rewrite Hn. destruct (table_tcs t !! i) as [c|]; [|done].
  cbn [fmap option_fmap option_map]. f_equal.
  rewrite cell_text_refill_iter. apply (iter_refilled_nil (S n)).
Qed.

(** The document the filler makes of [doc] for a dict of strings. *)
Lemma filled_all_cells m (ps : list paragraph) (doc : document) :
  all_cells
    (Document ps
       (map (fun t =>
               Table (fold_left (fun tcs i => alter (refill m) i tcs)
                        (visited t) (table_tcs t))
                 (table_rows t))
          (doc_tables doc)))
  = doc_tables doc ≫= fun t =>
      table_rows t ≫=
        cells_of (fold_left (fun tcs i => alter (refill m) i tcs)
                    (visited t) (table_tcs t)).
Proof. unfold all_cells. simpl. by rewrite list_fmap_bind. Qed.

Lemma fill_empty_round_trip (doc : document) :
  Forall (fun t => Forall has_paragraphs (table_tcs t)) (doc_tables doc) ->
  Forall (fun p => xml_compatible (p_text p) = true) (doc_paragraphs doc) ->
  Forall (fun t => Forall cell_ok (table_tcs t)) (doc_tables doc) ->
  exists doc' text,
    fill_template_docx (DocxBytes doc) (JObj []) = Ok (DocxBytes doc')
    /\ extract_text_from_docx (DocxBytes doc) = Ok text
    /\ extract_text_from_docx (DocxBytes doc') = Ok (read_back text).
Proof.
  intros Hdoc Hps Htables. change (JObj []) with (str_dict []).
  unfold fill_template_docx. simpl.
  rewrite (fill_document_str_dict [] eq_refl doc Hps Htables). simpl.
  do 2 eexists. split; [reflexivity|].
  split; [by apply docx_text_by_cells|].
  rewrite docx_text_by_cells.
  2:{ simpl. apply Forall_fmap. eapply Forall_impl; [exact Hdoc|].
      intros t Ht. simpl. apply alter_passes_Forall; [|done].
      intros c _. unfold has_paragraphs. done. }
  f_equal. rewrite filled_all_cells. cbn [doc_paragraphs].
  rewrite read_back_join, map_app, !map_map. f_equal. f_equal.
  unfold all_cells. rewrite !map_bind.
  apply Forall_bind_ext, Forall_forall. intros t _. rewrite !map_bind.
  apply Forall_bind_ext, Forall_forall. intros r Hr.
  by apply cells_of_reread.
Qed.

(** X8. Filling with the empty dict and extracting again gives the text of
    the template with each carriage return read as a line feed, and so the
    text of the template itself when that holds no carriage return; this in
    a template whose cells all hold a paragraph and whose texts hold only
    characters XML allows.  The runs and cell paragraphs the filler merges
    do not show in the extracted text. *)
Theorem extract_after_empty_fill (doc : document)
    (Hcells : cells_have_paragraphs doc = true)
    (Hxml : doc_xml_compatible doc = true) :
  exists doc' text,
    fill_template_docx (DocxBytes doc) (JObj []) = Ok (DocxBytes doc')
    /\ extract_text_from_docx (DocxBytes doc) = Ok text
    /\ extract_text_from_docx (DocxBytes doc') = Ok (read_back text)
    /\ (occurs Str.cr text = false ->
        extract_text_from_docx (DocxBytes doc') = Ok text).
Proof.
  destruct (doc_xml_compatible_Forall doc Hxml) as [Hps Htables].
  destruct (fill_empty_round_trip doc
              (cells_have_paragraphs_Forall doc Hcells) Hps Htables)
    as (doc' & text & Hfill & Hbefore & Hafter).
  exists doc', text. repeat split; [done..|].
  intros Hcr. by rewrite Hafter, read_back_no_cr.
Qed.

Lemma extract_after_empty_fill_witness :
  cells_have_paragraphs sample_template = true
  /\ doc_xml_compatible sample_template = true
  /\ exists doc',
       fill_template_docx (DocxBytes sample_template) (JObj [])
       = Ok (DocxBytes doc')
       /\ extract_text_from_docx (DocxBytes doc') = Ok sample_template_text.
Proof.
  split; [reflexivity|]. split; [reflexivity|].
  destruct (extract_after_empty_fill sample_template eq_refl eq_refl)
    as (doc' & text & Hfill & Hbefore & _ & Hsame).
  exists doc'. split; [exact Hfill|].
  vm_compute in Hbefore. injection Hbefore as <-.
  apply Hsame. reflexivity.
Defined.

Lemma filter_absent (i : nat) (l : list nat) :
  i ∉ l -> filter (fun x => x = i) l = [].
Proof.
  induction l as [|x l IH]; [done|]. intros [Hx Hl]%not_elem_of_cons.
  rewrite filter_cons_False by congruence. by apply IH.
Qed.

Lemma NoDup_one_pass (i : nat) (l : list nat) :
  NoDup l -> i ∈ l -> length (filter (fun x => x = i) l) = 1.
Proof.
  induction 1 as [|x l Hx Hl IH]; [by intros ?%elem_of_nil|].
  destruct (decide (x = i)) as [->|Hne].
  - intros _. rewrite filter_cons_True by done. by rewrite filter_absent.
  - intros [?|Hi]%elem_of_cons; [congruence|].
    rewrite filter_cons_False by done. by apply IH.
Qed.

Lemma omap_fmap_on {A : Type} (h : A -> A) (f f' : nat -> option A)
    (refs : list nat) :
  Forall (fun i => f' i = h <$> f i) refs ->
  omap f' refs = map h (omap f refs).
Proof.
  induction 1 as [|i refs Hi _ IH]; [done|].
  cbn [omap list_omap]. rewrite Hi.
  destruct (f i); simpl; [f_equal|]; exact IH.
Qed.

(** Without merged cells every yielded cell is assigned once. *)
Lemma cells_of_filled m (t : table) (r : row) :
  NoDup (visited t) -> r ∈ table_rows t ->
  cells_of (fold_left (fun tcs i => alter (refill m) i tcs)
              (visited t) (table_tcs t)) r
  = map (refill m) (cells_of (table_tcs t) r).
Proof.
  intros Hnodup Hr. unfold cells_of. apply omap_fmap_on, Forall_forall.
  intros i Hi. rewrite alter_passes_lookup, NoDup_one_pass; [done..|].
  unfold visited. apply list_elem_of_bind. by exists r.
Qed.

Lemma fill_then_extract m (doc : document) :
  forallb (fun kv => xml_compatible (snd kv)) m = true ->
  Forall (fun p => xml_compatible (p_text p) = true) (doc_paragraphs doc) ->
  Forall (fun t => Forall cell_ok (table_tcs t)) (doc_tables doc) ->
  Forall (fun t => NoDup (visited t)) (doc_tables doc) ->
  exists doc',
    fill_template_docx (DocxBytes doc) (str_dict m) = Ok (DocxBytes doc')
    /\ extract_text_from_docx (DocxBytes doc')
       = Ok (Str.join Str.nl
               (map (fun text => read_back (substitute m text))
                  (map p_text (doc_paragraphs doc)
                   ++ map cell_text (all_cells doc)))).
Proof.
  intros Hvalues Hps Htables Hdoc.
  unfold fill_template_docx. simpl.
  rewrite (fill_document_str_dict m Hvalues doc Hps Htables). simpl.
  eexists. split; [reflexivity|].
  rewrite docx_lines, filled_all_cells. cbn [doc_paragraphs].
  assert (Hcells :
    (doc_tables doc ≫= fun t =>
       table_rows t ≫=
         cells_of (fold_left (fun tcs i => alter (refill m) i tcs)
                     (visited t) (table_tcs t)))
    = map (refill m) (all_cells doc)).
  { unfold all_cells. rewrite map_bind. apply Forall_bind_ext.
    eapply Forall_impl; [exact Hdoc|]. intros t Ht. simpl.
    rewrite map_bind. apply Forall_bind_ext, Forall_forall.
    intros r Hr. by apply cells_of_filled. }
  rewrite Hcells, join_cells.
  2:{ apply Forall_fmap, Forall_forall. by intros c _. }
  by rewrite map_app, !map_map.
Qed.

(** X9. In a template without merged cells, when the values of the dict and
    the texts of the template hold only characters XML allows, extracting
    from the filled document gives the lines of the template, each paragraph
    text and each cell text substituted on its own and read back, joined by
    single newlines. *)
Theorem extract_after_fill (m : list (string * string)) (doc : document)
    (Hunmerged : no_merged_cells doc = true)
    (Hvalues : values_xml_compatible m = true)
    (Hxml : doc_xml_compatible doc = true) :
  exists doc',
    fill_template_docx (DocxBytes doc) (str_dict m) = Ok (DocxBytes doc')
    /\ extract_text_from_docx (DocxBytes doc')
       = Ok (Str.join Str.nl
               (map (fun text => read_back (substitute m text))
                  (map p_text (doc_paragraphs doc)
                   ++ map cell_text (all_cells doc)))).
Proof.
  destruct (doc_xml_compatible_Forall doc Hxml) as [Hps Htables].
  apply fill_then_extract; [done..|]. unfold no_merged_cells in Hunmerged.
  rewrite forallb_forall in Hunmerged. apply Forall_forall.
  intros t Ht%list_elem_of_In.
  exact (bool_decide_eq_true_1 _ (Hunmerged t Ht)).
Qed.

Lemma extract_after_fill_witness :
  no_merged_cells
    (Document [Paragraph ["Insured: "; "{{NAME}}"]]
       [Table [Cell [Paragraph ["{{NAME}}"]; Paragraph ["(as on policy)"]]]
          [Row [0]]]) = true
  /\ exists doc',
       fill_template_docx
         (DocxBytes
            (Document [Paragraph ["Insured: "; "{{NAME}}"]]
               [Table [Cell [Paragraph ["{{NAME}}"]; Paragraph ["(as on policy)"]]]
                  [Row [0]]]))
         (str_dict [("{{NAME}}", "Jane" +:+ Str.cr +:+ "Doe")])
       = Ok (DocxBytes doc')
       /\ extract_text_from_docx (DocxBytes doc')
          = Ok (Str.join Str.nl
                  ["Insured: Jane" +:+ Str.nl +:+ "Doe";
                   "Jane" +:+ Str.nl +:+ "Doe" +:+ Str.nl +:+ "(as on policy)"]).
Proof.
  split; [reflexivity|].
  exact (extract_after_fill [("{{NAME}}", "Jane" +:+ Str.cr +:+ "Doe")]
           (Document [Paragraph ["Insured: "; "{{NAME}}"]]
              [Table [Cell [Paragraph ["{{NAME}}"]; Paragraph ["(as on policy)"]]]
                 [Row [0]]])
           eq_refl eq_refl eq_refl).
Defined.

(** ** The report text, continued *)

Lemma pdf_loop_garbage acc (pdf_files : list pdf_file) :
  existsb is_garbage pdf_files = true ->
  rfold (fun text pdf =>
           pages ← PdfReader pdf;
           Ok (fold_left
                 (fun text page => text ++ [or_empty (extract_text page)])
                 pages text))
    acc pdf_files
  = Raise PdfReadError.
Proof.
  revert acc. induction pdf_files as [|[pages|] pdf_files IH]; intros acc Hbad.
  - done.
  - cbn [rfold]. simpl in Hbad. simpl. by apply IH.
  - reflexivity.
Qed.

(** X10. One upload the reader cannot open makes the whole extraction
    raise, wherever it stands among the uploads: no text of the readable
    reports is returned. *)
Theorem extract_text_from_pdfs_unreadable (pdf_files : list pdf_file)
    (Hbad : existsb is_garbage pdf_files = true) :
  extract_text_from_pdfs pdf_files = Raise PdfReadError.
Proof. unfold extract_text_from_pdfs. by rewrite pdf_loop_garbage. Qed.

Lemma extract_text_from_pdfs_unreadable_witness :
  existsb is_garbage (sample_reports ++ [PdfGarbage]) = true
  /\ extract_text_from_pdfs (sample_reports ++ [PdfGarbage]) = Raise PdfReadError.
Proof.
  split; [reflexivity|].
  apply (extract_text_from_pdfs_unreadable (sample_reports ++ [PdfGarbage])).
  reflexivity.
Defined.

(** X11. The boundaries between the uploaded files do not show in the
    report text: several reports give the text of the one report that holds
    all their pages in the same order. *)
Theorem extract_text_from_pdfs_file_boundaries (pagess : list (list page)) :
  extract_text_from_pdfs (PdfBytes <$> pagess)
  = extract_text_from_pdfs [PdfBytes (concat pagess)].
Proof.
  unfold extract_text_from_pdfs.
  change [PdfBytes (concat pagess)] with (PdfBytes <$> [concat pagess]).
  rewrite !pdf_loop. simpl. by rewrite app_nil_r.
Qed.

(** ** The LLM gateway, continued *)

(** X12. Once a call has returned a client, every later call returns that
    client and leaves the session as it is, whatever the environment holds
    by then: the key is read on the first use only. *)
Theorem get_llm_client_cached (X X' : externals) (s s1 : session) (c : client)
    (Hfirst : get_llm_client X s = (s1, Ok c)) :
  get_llm_client X' s1 = (s1, Ok c).
Proof.
  unfold get_llm_client in *.
  destruct (cached_client s) as [c0|] eqn:Hcache.
  - injection Hfirst as <- <-. by rewrite Hcache.
  - destruct (new_llm_client X) as [c0|e]; [|done].
    by injection Hfirst as <- <-.
Qed.

Lemma get_llm_client_cached_witness :
  get_llm_client (sample_externals (Some sample_key) reply_prose) fresh_session
  = (Session (Some sample_client) [], Ok sample_client)
  /\ get_llm_client (sample_externals None reply_prose)
       (Session (Some sample_client) [])
     = (Session (Some sample_client) [], Ok sample_client).
Proof.
  split; [reflexivity|].
  apply (get_llm_client_cached
           (sample_externals (Some sample_key) reply_prose)
           (sample_externals None reply_prose)
           fresh_session).
  reflexivity.
Defined.

(** The gateway reads nothing of what has been shown and shows nothing. *)
Lemma call_llm_frame X template_text report_text cache sh :
  call_llm_to_get_field_mapping X template_text report_text (Session cache sh)
  = (Session
       (cached_client
          (fst (call_llm_to_get_field_mapping X template_text report_text
                  (Session cache []))))
       sh,
     snd (call_llm_to_get_field_mapping X template_text report_text
            (Session cache []))).
Proof.
  unfold call_llm_to_get_field_mapping, mbind, action_bind, get_llm_client, lift.
  simpl. destruct cache as [c|]; [|destruct (new_llm_client X) as [c|e]; [|done]].
  all: destruct (chat_completions_create X c _) as [resp|e]; [|done].
  all: destruct (first_item (choices resp)) as [ch|e]; [|done].
  all: by destruct (loads X (message_content ch)).
Qed.

Section GatewayFailures.

(** A call of the gateway in which a client is at hand. *)
Variables (X : externals) (cache : option client) (c : client).
Variables (template_text report_text : string) (sh : list event).

Hypothesis Hclient :
  cache = Some c \/ (cache = None /\ new_llm_client X = Ok c).

(** X13. When the endpoint raises, the gateway raises the same exception;
    the client built for the call stays cached. *)
Theorem call_llm_endpoint_failure (e : exn)
    (Hanswer :
       chat_completions_create X c (completion_request template_text report_text)
       = Raise e) :
  call_llm_to_get_field_mapping X template_text report_text (Session cache sh)
  = (Session (Some c) sh, Raise e).
Proof using Hclient.
  unfold call_llm_to_get_field_mapping, mbind at 1 2 3 4, action_bind, lift.
  by rewrite (gateway_client X cache c Hclient), Hanswer.
Qed.

(** X14. A response without choices makes the gateway raise [IndexError],
    and a first choice without text makes it raise [TypeError]: in neither
    case is a mapping returned. *)
Theorem call_llm_reply_without_text (resp : response)
    (Hanswer :
       chat_completions_create X c (completion_request template_text report_text)
       = Ok resp) :
  (choices resp = [] ->
   call_llm_to_get_field_mapping X template_text report_text (Session cache sh)
   = (Session (Some c) sh, Raise IndexError))
  /\ (forall ch rest,
        choices resp = ch :: rest -> message_content ch = None ->
        call_llm_to_get_field_mapping X template_text report_text
          (Session cache sh)
        = (Session (Some c) sh, Raise TypeError)).
Proof using Hclient.
  split.
  - intros Hnone.
    unfold call_llm_to_get_field_mapping, mbind at 1 2 3 4, action_bind, lift.
    by rewrite (gateway_client X cache c Hclient), Hanswer, Hnone.
  - intros ch rest Hchoices Hcontent.
    unfold call_llm_to_get_field_mapping, mbind at 1 2 3 4, action_bind, lift.
    rewrite (gateway_client X cache c Hclient), Hanswer, Hchoices. simpl.
    by rewrite Hcontent.
Qed.

(** X15. A reply that is JSON but not an object (an array, a string, a
    number, [null]) makes the gateway raise [AttributeError]; the empty
    mapping is the answer to an object without ["fields"] only. *)
Theorem call_llm_reply_not_an_object (resp : response) (ch : choice)
    (rest : list choice) (raw : string) (data : json)
    (Hanswer :
       chat_completions_create X c (completion_request template_text report_text)
       = Ok resp)
    (Hchoices : choices resp = ch :: rest)
    (Hcontent : message_content ch = Some raw)
    (Hjson : json_loads X raw = Some data)
    (Hdata : not_a_dict data = true) :
  call_llm_to_get_field_mapping X template_text report_text (Session cache sh)
  = (Session (Some c) sh, Raise AttributeError).
Proof using Hclient.
  rewrite (gateway_parses_reply X cache c template_text report_text
             resp ch rest raw Hclient Hanswer Hchoices Hcontent).
  unfold loads. rewrite Hjson. by destruct data.
Qed.

End GatewayFailures.

Lemma call_llm_endpoint_failure_witness :
  call_llm_to_get_field_mapping (answering_externals (Raise APIError))
    sample_template_text sample_report_text fresh_session
  = (Session (Some sample_client) [], Raise APIError).
Proof.
  exact (call_llm_endpoint_failure (answering_externals (Raise APIError))
           None sample_client sample_template_text sample_report_text []
           (or_intror (conj eq_refl eq_refl)) APIError eq_refl).
Defined.

Lemma call_llm_reply_without_text_witness :
  call_llm_to_get_field_mapping (answering_externals (Ok (Response [])))
    sample_template_text sample_report_text fresh_session
  = (Session (Some sample_client) [], Raise IndexError)
  /\ call_llm_to_get_field_mapping
       (answering_externals (Ok (Response [Choice None])))
       sample_template_text sample_report_text fresh_session
     = (Session (Some sample_client) [], Raise TypeError).
Proof.
  split.
  - exact (proj1 (call_llm_reply_without_text
                    (answering_externals (Ok (Response [])))
                    None sample_client sample_template_text sample_report_text []
                    (or_intror (conj eq_refl eq_refl)) (Response []) eq_refl)
             eq_refl).
  - exact (proj2 (call_llm_reply_without_text
                    (answering_externals (Ok (Response [Choice None])))
                    None sample_client sample_template_text sample_report_text []
                    (or_intror (conj eq_refl eq_refl))
                    (Response [Choice None]) eq_refl)
             (Choice None) [] eq_refl eq_refl).
Defined.

Lemma call_llm_reply_not_an_object_witness :
  json_loads (answering_externals (Ok (Response [Choice (Some "[]")]))) "[]"
  = Some (JArr [])
  /\ call_llm_to_get_field_mapping
       (answering_externals (Ok (Response [Choice (Some "[]")])))
       sample_template_text sample_report_text fresh_session
     = (Session (Some sample_client) [], Raise AttributeError).
Proof.
  split; [reflexivity|].
  exact (call_llm_reply_not_an_object
           (answering_externals (Ok (Response [Choice (Some "[]")])))
           None sample_client sample_template_text sample_report_text []
           (or_intror (conj eq_refl eq_refl))
           (Response [Choice (Some "[]")]) (Choice (Some "[]")) [] "[]"
           (JArr []) eq_refl eq_refl eq_refl eq_refl eq_refl).
Defined.

(** ** The action handler, continued *)

Section Runs.

(** A press of the button with both uploads present. *)
Variables (X : externals) (cache : option client) (sh : list event).
Variables (temp_bytes : docx_file) (pdf : pdf_file) (pdfs : list pdf_file).

(** X16. When an extraction raises, the handler ends with that exception
    right there: the gateway and the filler are not called, no request is
    made and the cache is as before. *)
Theorem generate_extraction_failure (e : exn)
    (Hfail :
       extract_text_from_pdfs (pdf :: pdfs) = Raise e
       \/ ((exists report_text, extract_text_from_pdfs (pdf :: pdfs) = Ok report_text)
           /\ extract_text_from_docx temp_bytes = Raise e)) :
  exists events,
    generate X (Some temp_bytes) (pdf :: pdfs) (Session cache sh)
    = (Session cache (sh ++ events), Raise e)
    /\ (Invoked Gateway ∉ events)
    /\ (Invoked Filler ∉ events).
Proof.
  destruct Hfail as [Hpdfs | [[report_text Hpdfs] Hdocx]].
  - exists [StSpinner "Extracting PDF text..."; Invoked Extractor].
    split; [|split; not_shown].
    unfold generate, spinner, invoke, emit, lift, mbind, action_bind.
    cbn [cached_client shown]. rewrite Hpdfs.
    by rewrite <- !List.app_assoc.
  - exists [StSpinner "Extracting PDF text..."; Invoked Extractor;
            StSpinner "Reading template..."; Invoked Extractor].
    split; [|split; not_shown].
    unfold generate, spinner, invoke, emit, lift, mbind, action_bind.
    cbn [cached_client shown]. rewrite Hpdfs, Hdocx.
    by rewrite <- !List.app_assoc.
Qed.

Variables (template_text report_text : string).
Hypothesis Hpdfs : extract_text_from_pdfs (pdf :: pdfs) = Ok report_text.
Hypothesis Hdocx : extract_text_from_docx temp_bytes = Ok template_text.

(** X17. When the gateway raises, for whatever reason (no key, a failing
    endpoint, a reply it cannot use), the handler ends with that exception:
    the filler is not called, no mapping is shown and no download is
    offered. *)
Theorem generate_gateway_failure (cache' : option client) (e : exn)
    (Hgateway :
       call_llm_to_get_field_mapping X template_text report_text
         (Session cache [])
       = (Session cache' [], Raise e)) :
  exists events,
    generate X (Some temp_bytes) (pdf :: pdfs) (Session cache sh)
    = (Session cache' (sh ++ events), Raise e)
    /\ (Invoked Filler ∉ events)
    /\ (forall value, StJson value ∉ events)
    /\ (forall label data file_name,
          StDownloadButton label data file_name ∉ events).
Proof using Hpdfs Hdocx.
  exists [StSpinner "Extracting PDF text..."; Invoked Extractor;
          StSpinner "Reading template..."; Invoked Extractor;
          StSpinner "Calling LLM (DeepSeek Free)..."; Invoked Gateway].
  split; [|split; [|split]; intros; not_shown].
  unfold generate, spinner, invoke, emit, lift, mbind, action_bind.
  cbn [cached_client shown]. rewrite Hpdfs, Hdocx, call_llm_frame, Hgateway.
  cbn [fst snd cached_client]. by rewrite <- !List.app_assoc.
Qed.

Variables (cache' : option client) (field_mapping : json).
Hypothesis Hgateway :
  call_llm_to_get_field_mapping X template_text report_text (Session cache [])
  = (Session cache' [], Ok field_mapping).

(** X18. When the filler raises, the handler ends with that exception after
    it has shown the mapping: neither the success message nor a download
    follows. *)
Theorem generate_filler_failure (e : exn)
    (Hfill : fill_template_docx temp_bytes field_mapping = Raise e) :
  exists events,
    generate X (Some temp_bytes) (pdf :: pdfs) (Session cache sh)
    = (Session cache' (sh ++ events), Raise e)
    /\ StJson field_mapping ∈ events
    /\ (forall msg, StSuccess msg ∉ events)
    /\ (forall label data file_name,
          StDownloadButton label data file_name ∉ events).
Proof using Hpdfs Hdocx Hgateway.
  exists [StSpinner "Extracting PDF text..."; Invoked Extractor;
          StSpinner "Reading template..."; Invoked Extractor;
          StSpinner "Calling LLM (DeepSeek Free)..."; Invoked Gateway;
          StSubheader "Detected Field Mapping"; StJson field_mapping;
          StSpinner "Generating DOCX..."; Invoked Filler].
  split; [|split; [|split]].
  - unfold generate, spinner, invoke, emit, lift, mbind, action_bind.
    cbn [cached_client shown]. rewrite Hpdfs, Hdocx, call_llm_frame, Hgateway.
    cbn [fst snd cached_client shown]. rewrite Hfill.
    by rewrite <- !List.app_assoc.
  - rewrite !elem_of_cons. tauto.
  - intros. not_shown.
  - intros. not_shown.
Qed.

(** X19. When every step goes through, the handler ends normally, having
    called the extractor twice, then the gateway, then the filler, each
    once and in that order; it shows the mapping the gateway returned and
    offers what the filler made of the template bytes and that mapping,
    under the name [filled_template.docx]. *)
Theorem generate_completes (result : docx_file)
    (Hfill : fill_template_docx temp_bytes field_mapping = Ok result) :
  exists events,
    generate X (Some temp_bytes) (pdf :: pdfs) (Session cache sh)
    = (Session cache' (sh ++ events), Ok tt)
    /\ List.filter is_invocation events
       = [Invoked Extractor; Invoked Extractor; Invoked Gateway; Invoked Filler]
    /\ List.filter is_output events
       = [StJson field_mapping;
          StDownloadButton "⬇ Download Filled DOCX" result "filled_template.docx"].
Proof using Hpdfs Hdocx Hgateway.
  exists [StSpinner "Extracting PDF text..."; Invoked Extractor;
          StSpinner "Reading template..."; Invoked Extractor;
          StSpinner "Calling LLM (DeepSeek Free)..."; Invoked Gateway;
          StSubheader "Detected Field Mapping"; StJson field_mapping;
          StSpinner "Generating DOCX..."; Invoked Filler;
          StSuccess "Completed! Download your filled template:";
          StDownloadButton "⬇ Download Filled DOCX" result "filled_template.docx"].
  split; [|split; reflexivity].
  unfold generate, spinner, invoke, emit, lift, mbind, action_bind.
  cbn [cached_client shown]. rewrite Hpdfs, Hdocx, call_llm_frame, Hgateway.
  cbn [fst snd cached_client shown]. rewrite Hfill.
  cbn [cached_client shown]. by rewrite <- !List.app_assoc.
Qed.

End Runs.

Lemma generate_extraction_failure_witness :
  extract_text_from_pdfs [PdfGarbage] = Raise PdfReadError
  /\ exists events,
       generate (sample_externals (Some sample_key) reply_with_fields)
         (Some (DocxBytes sample_template)) [PdfGarbage] fresh_session
       = (Session None ([] ++ events), Raise PdfReadError)
       /\ (Invoked Gateway ∉ events)
       /\ (Invoked Filler ∉ events).
Proof.
  split; [reflexivity|].
  exact (generate_extraction_failure
           (sample_externals (Some sample_key) reply_with_fields) None []
           (DocxBytes sample_template) PdfGarbage [] PdfReadError
           (or_introl eq_refl)).
Defined.

Lemma generate_gateway_failure_witness :
  call_llm_to_get_field_mapping (sample_externals None reply_with_fields)
    sample_template_text sample_report_text fresh_session
  = (fresh_session, Raise (ValueError "OPENROUTER_API_KEY not found in .env"))
  /\ exists events,
       generate (sample_externals None reply_with_fields)
         (Some (DocxBytes sample_template))
         (PdfBytes [Page (Some "Insured Jane Doe"); Page None]
          :: [PdfBytes [Page (Some "Loss on 2024-05-01")]])
         fresh_session
       = (Session None ([] ++ events),
          Raise (ValueError "OPENROUTER_API_KEY not found in .env"))
       /\ (Invoked Filler ∉ events).
Proof.
  split; [reflexivity|].
  destruct (generate_gateway_failure
              (sample_externals None reply_with_fields) None []
              (DocxBytes sample_template)
              (PdfBytes [Page (Some "Insured Jane Doe"); Page None])
              [PdfBytes [Page (Some "Loss on 2024-05-01")]]
              sample_template_text sample_report_text eq_refl eq_refl
              None (ValueError "OPENROUTER_API_KEY not found in .env") eq_refl)
    as (events & Hrun & Hfiller & _).
  exists events. split; [exact Hrun | exact Hfiller].
Defined.

Lemma generate_filler_failure_witness :
  fill_template_docx (DocxBytes sample_template) (JArr [JStr "Jane Doe"])
  = Raise AttributeError
  /\ exists events,
       generate bad_fields_externals
         (Some (DocxBytes sample_template))
         (PdfBytes [Page (Some "Insured Jane Doe"); Page None]
          :: [PdfBytes [Page (Some "Loss on 2024-05-01")]])
         fresh_session
       = (Session (Some sample_client) ([] ++ events), Raise AttributeError)
       /\ StJson (JArr [JStr "Jane Doe"]) ∈ events.
Proof.
  split; [reflexivity|].
  destruct (generate_filler_failure
              bad_fields_externals None []
              (DocxBytes sample_template)
              (PdfBytes [Page (Some "Insured Jane Doe"); Page None])
              [PdfBytes [Page (Some "Loss on 2024-05-01")]]
              sample_template_text sample_report_text eq_refl eq_refl
              (Some sample_client) (JArr [JStr "Jane Doe"]) eq_refl
              AttributeError eq_refl)
    as (events & Hrun & Hshown & _).
  exists events. split; [exact Hrun | exact Hshown].
Defined.

Lemma generate_completes_witness :
  fill_template_docx (DocxBytes sample_template)
    (JObj [("{{NAME}}", JStr "Jane Doe")])
  = Ok sample_filled
  /\ exists events,
       generate (sample_externals (Some sample_key) reply_with_fields)
         (Some (DocxBytes sample_template))
         (PdfBytes [Page (Some "Insured Jane Doe"); Page None]
          :: [PdfBytes [Page (Some "Loss on 2024-05-01")]])
         fresh_session
       = (Session (Some sample_client) ([] ++ events), Ok tt)
       /\ List.filter is_output events
          = [StJson (JObj [("{{NAME}}", JStr "Jane Doe")]);
             StDownloadButton "⬇ Download Filled DOCX" sample_filled
               "filled_template.docx"].
Proof.
  split; [reflexivity|].
  destruct (generate_completes
              (sample_externals (Some sample_key) reply_with_fields) None []
              (DocxBytes sample_template)
              (PdfBytes [Page (Some "Insured Jane Doe"); Page None])
              [PdfBytes [Page (Some "Loss on 2024-05-01")]]
              sample_template_text sample_report_text eq_refl eq_refl
              (Some sample_client) (JObj [("{{NAME}}", JStr "Jane Doe")]) eq_refl
              sample_filled eq_refl)
    as (events & Hrun & _ & Houtput).
  exists events. split; [exact Hrun | exact Houtput].
Defined.
